(** * Client queries handler of libedgedns (client_queries_handler.rs,
    pending_query.rs): a shallow embedding.

    The handler is modelled as explicit state passing over the shared
    objects it reaches through its [Arc]/[Rc] handles: the pending-query
    map, the upstream-server registry, the live-index vector and the
    waiting-clients counter.  Collaborators that live in other modules of
    the crate (the DNS codec, the cache, the jump hasher, the upstream
    server's own methods) are section variables, so every result holds for
    any implementation of them.  A Rust panic is [None] in the [option]
    monad; a Rust [Result] is [result]. *)

From stdpp Require Import base gmap list strings fin_maps.
From Stdlib Require Import Sorting.Sorted.

(** ** Data model *)

Definition SocketAddr := N.
Definition Packet := list Byte.byte.

Inductive result (A E : Type) : Type :=
| Ok (a : A)
| Err (e : E).
Arguments Ok {A E} a.
Arguments Err {A E} e.

Inductive LoadBalancingMode := Fallback | Uniform | P2.

(** dns::NormalizedQuestion, the fields the handler reads. *)
Record NormalizedQuestion := {
  qname : string;
  qtype : N;
  qclass : N;
  tid : N
}.

(** dns::NormalizedQuestionKey. *)
Record NormalizedQuestionKey := {
  nqk_qname : string;
  nqk_qtype : N;
  nqk_qclass : N
}.

(** dns::NormalizedQuestionMinimal: the upstream transaction id and flags. *)
Record NormalizedQuestionMinimal := {
  nqm_tid : N;
  nqm_flags : N
}.

(** upstream_server::UpstreamServerForQuery. *)
Record UpstreamServerForQuery := {
  usq_socket_addr : SocketAddr
}.

(** upstream_server::UpstreamServer.  [offline] is the health flag kept by
    the failure/recovery logic of upstream_server.rs. *)
Record UpstreamServer := {
  remote_addr : string;
  socket_addr : SocketAddr;
  pending_queries_count : N;   (* u64 *)
  failures : N;
  offline : bool;
  last_probe_ts : option N     (* coarsetime::Instant, in ms *)
}.

(** client_query::ClientQuery.  [client_id] stands for the reply channel. *)
Record ClientQuery := {
  normalized_question : NormalizedQuestion;
  cq_custom_hash : N * N;
  upstream_servers_for_query : list UpstreamServerForQuery;
  client_id : N
}.

(** pending_query::PendingQueryKey. *)
Record PendingQueryKey := {
  normalized_question_key : NormalizedQuestionKey;
  custom_hash : N * N
}.

(** pending_query::PendingQuery.  The oneshot sender [done_tx] and the
    metrics handle carry no state that the handler reads back. *)
Record PendingQuery := {
  normalized_question_minimal : NormalizedQuestionMinimal;
  local_port : N;
  client_queries : list ClientQuery;
  ts : N;
  upstream_server_idx : nat;
  probed_socket_addr : option SocketAddr;
  pq_custom_hash : N * N
}.

(** Keys of the pending map are countable (derived Hash/Eq in Rust). *)
#[global] Instance NormalizedQuestionKey_eq_dec : EqDecision NormalizedQuestionKey.
Proof. solve_decision. Defined.
#[global] Instance NormalizedQuestionKey_countable : Countable NormalizedQuestionKey.
Proof.
  apply (inj_countable'
    (fun k => (nqk_qname k, nqk_qtype k, nqk_qclass k))
    (fun t => {| nqk_qname := t.1.1; nqk_qtype := t.1.2; nqk_qclass := t.2 |})).
  by intros [].
Defined.
#[global] Instance PendingQueryKey_eq_dec : EqDecision PendingQueryKey.
Proof. solve_decision. Defined.
#[global] Instance PendingQueryKey_countable : Countable PendingQueryKey.
Proof.
  apply (inj_countable'
    (fun k => (normalized_question_key k, custom_hash k))
    (fun t => {| normalized_question_key := t.1; custom_hash := t.2 |})).
  by intros [].
Defined.

(** The shared state of a ClientQueriesHandler:
    [pending_queries.map_arc], [upstream_servers_arc],
    [upstream_servers_live_arc] and [waiting_clients_count].  The counter is
    a usize; it counts ClientQuery values held in memory, so it is modelled
    as an unbounded N. *)
Record State := {
  pending_queries : gmap PendingQueryKey PendingQuery;
  upstream_servers : gmap SocketAddr UpstreamServer;
  upstream_servers_live : list nat;
  waiting_clients_count : N
}.

Record Config := {
  max_waiting_clients : N;
  lbmode : LoadBalancingMode
}.

(** Messages the handler puts on the wire. *)
Inductive Event :=
| SendUpstream (port : N) (addr : SocketAddr) (p : Packet)
| SendProbe (port : N) (addr : SocketAddr) (p : Packet)
| Respond (cq : ClientQuery) (p : Packet).

(** Record updates used by the handler. *)
Definition set_pending_queries (st : State) m : State :=
  {| pending_queries := m; upstream_servers := upstream_servers st;
     upstream_servers_live := upstream_servers_live st;
     waiting_clients_count := waiting_clients_count st |}.
Definition set_upstream_servers (st : State) r : State :=
  {| pending_queries := pending_queries st; upstream_servers := r;
     upstream_servers_live := upstream_servers_live st;
     waiting_clients_count := waiting_clients_count st |}.
Definition set_waiting_clients_count (st : State) w : State :=
  {| pending_queries := pending_queries st; upstream_servers := upstream_servers st;
     upstream_servers_live := upstream_servers_live st;
     waiting_clients_count := w |}.

Definition set_pending_queries_count (s : UpstreamServer) c : UpstreamServer :=
  {| remote_addr := remote_addr s; socket_addr := socket_addr s;
     pending_queries_count := c; failures := failures s; offline := offline s;
     last_probe_ts := last_probe_ts s |}.
Definition set_last_probe_ts (s : UpstreamServer) t : UpstreamServer :=
  {| remote_addr := remote_addr s; socket_addr := socket_addr s;
     pending_queries_count := pending_queries_count s; failures := failures s;
     offline := offline s; last_probe_ts := t |}.

Definition push_client_query (p : PendingQuery) (cq : ClientQuery) : PendingQuery :=
  {| normalized_question_minimal := normalized_question_minimal p;
     local_port := local_port p; client_queries := client_queries p ++ [cq];
     ts := ts p; upstream_server_idx := upstream_server_idx p;
     probed_socket_addr := probed_socket_addr p;
     pq_custom_hash := pq_custom_hash p |}.

(** u64 saturating arithmetic. *)
Definition U64_MAX : N := 2 ^ 64 - 1.
Definition saturating_add (a b : N) : N := N.min (a + b) U64_MAX.
Definition saturating_sub (a b : N) : N := a - b.

(** usize [fetch_sub] on a 64-bit target: subtraction modulo 2^64, which
    wraps below zero; for operands under 2^64 this is (a - b) mod 2^64
    ([wrapping_sub_mod]). *)
Definition USIZE_MODULUS : N := 2 ^ 64.
Definition wrapping_sub (a b : N) : N :=
  if (b <=? a)%N then a - b
  else (USIZE_MODULUS - (b - a) mod USIZE_MODULUS) mod USIZE_MODULUS.

(** [v[i]] on a Vec: out of range panics. *)
Definition index {A} (l : list A) (i : nat) : option A := l !! i.

(** [slice.sort_by_key(|x| x.1)]: a stable sort on the second component. *)
Fixpoint insert_by_key (x : nat * N) (l : list (nat * N)) : list (nat * N) :=
  match l with
  | [] => [x]
  | y :: l' => if (x.2 <=? y.2)%N then x :: l else y :: insert_by_key x l'
  end.
Definition sort_by_key (l : list (nat * N)) : list (nat * N) :=
  fold_right insert_by_key [] l.

Section LoadBalancer.

(** jumphash::JumpHasher::slot on the query name and a u32 slot count. *)
Variable jumphash_slot : string -> N -> N.

(** NormalizedQuestion::pick_upstream.  The source reads a vector named
    [upstream_servers_live] that is not in scope in that method and indexes
    the registry map by position; both are explicit arguments here: the
    live-index vector, and the registry entries of the query's candidate
    servers in index order (a [None] entry is a server missing from the map,
    where the map's Index panics). *)
Definition pick_upstream (nq : NormalizedQuestion)
    (upstream_servers : list (option UpstreamServer))
    (upstream_servers_live : list nat) (is_retry : bool)
    (mode : LoadBalancingMode) : option (result nat string) :=
  let live_count := length upstream_servers_live in
  if Nat.eqb live_count 0 then Some (Err "All upstream servers are down")
  else
  match mode with
  | Fallback => Ok <$> index upstream_servers_live 0
  | Uniform =>
      let i0 := N.to_nat (jumphash_slot (qname nq)
                            (N.of_nat live_count mod 2 ^ 32)) in
      let i := if is_retry then Nat.modulo (i0 + 1) live_count else i0 in
      Ok <$> index upstream_servers_live i
  | P2 =>
      busy_map ← mapM (fun i =>
                   s ← index upstream_servers i ≫= id;
                   Some (i, pending_queries_count s)) upstream_servers_live;
      let busy_map := sort_by_key busy_map in
      let i := if Nat.eqb (length busy_map) 1 then 0
               else N.to_nat (N.land (tid nq + (if is_retry then 1 else 0)) 1) in
      x ← index busy_map i;
      Some (Ok x.1)
  end.

End LoadBalancer.

(** [Σ |PendingQuery.client_queries|] over the pending map. *)
Definition waiting_sum (m : gmap PendingQueryKey PendingQuery) : N :=
  map_fold (fun _ p acc => N.of_nat (length (client_queries p)) + acc)%N 0%N m.

(** ClientQueriesHandler::cap_pending_queries.  [map.keys().next()] is the
    first key in the map's iteration order, here the head of
    [map_to_list].  The [assert!] after [fetch_sub] panics. *)
Definition cap_pending_queries (config : Config) (st : State) : option (State * bool) :=
  if (waiting_clients_count st <? max_waiting_clients config)%N then Some (st, false)
  else
  match head (map_to_list (pending_queries st)) with
  | None => Some (st, false)
  | Some (key, _) =>
      match pending_queries st !! key with
      | Some pending_query =>
          let clients_count := N.of_nat (length (client_queries pending_query)) in
          let prev_count := waiting_clients_count st in
          if (prev_count <? clients_count)%N then None
          else Some (set_waiting_clients_count
                       (set_pending_queries st (delete key (pending_queries st)))
                       (prev_count - clients_count), true)
      | None => Some (st, true)
      end
  end.


(** What the first-attempt timer's [or_else] closure captures. *)
Record FirstTimeout := {
  ft_upstream_server_for_query : UpstreamServerForQuery;
  ft_normalized_question : NormalizedQuestion;
  ft_upstream_servers_for_query : list UpstreamServerForQuery
}.

(** What the retry timer's [or_else] closure captures. *)
Record SecondTimeout := {
  st_upstream_server_for_query : UpstreamServerForQuery;
  st_key : PendingQueryKey
}.

(** The registry entries of the candidate servers, in index order. *)
Definition servers_by_idx (reg : gmap SocketAddr UpstreamServer)
    (usqs : list UpstreamServerForQuery) : list (option UpstreamServer) :=
  map (fun u => reg !! usq_socket_addr u) usqs.

Section Handler.

(** NormalizedQuestion::key. *)
Variable key_of : NormalizedQuestion -> NormalizedQuestionKey.
(** Cache::get2: the packet of the cached entry, expired or not. *)
Variable cache_get2 : NormalizedQuestion -> N * N -> option Packet.
(** dns::build_query_packet and dns::build_servfail_packet; [None] is an
    [Err] of the codec. *)
Variable build_query_packet :
  NormalizedQuestion -> bool -> option (Packet * NormalizedQuestionMinimal).
Variable build_servfail_packet : NormalizedQuestion -> option Packet.
Variable jumphash_slot : string -> N -> N.
(** UpstreamServer::prepare_send and UpstreamServer::record_failure. *)
Variable prepare_send : UpstreamServer -> UpstreamServer.
Variable record_failure : UpstreamServer -> UpstreamServer.
(** UdpSocket::send_to from the socket bound to a local port: [true] is
    [Ok]. *)
Variable send_to : N -> SocketAddr -> Packet -> bool.
(** [net_ext_udp_sockets_rc], each socket given by its local port. *)
Variable net_ext_udp_sockets : list N.
Variable UPSTREAM_PROBES_DELAY_MS : N.

(** ClientQueriesHandler::maybe_add_to_existing_pending_query. *)
Definition maybe_add_to_existing_pending_query (st : State)
    (pending_query_key : PendingQueryKey) (client_query : ClientQuery) : State * bool :=
  match pending_queries st !! pending_query_key with
  | None => (st, false)
  | Some pending_query =>
      (set_waiting_clients_count
         (set_pending_queries st
            (<[pending_query_key := push_client_query pending_query client_query]>
               (pending_queries st)))
         (waiting_clients_count st + 1)%N, true)
  end.

(** ClientQueriesHandler::maybe_respond_with_stale_entry: the responses it
    sends. *)
Definition maybe_respond_with_stale_entry (client_query : ClientQuery) : list Event :=
  let nq := normalized_question client_query in
  match cache_get2 nq (cq_custom_hash client_query) with
  | Some packet => [Respond client_query packet]
  | None =>
      match build_servfail_packet nq with
      | Some packet => [Respond client_query packet]
      | None => []
      end
  end.

(** ClientQueriesHandler::maybe_respond_to_all_clients_with_stale_entry. *)
Definition maybe_respond_to_all_clients_with_stale_entry (pending_query : PendingQuery)
    : list Event :=
  flat_map maybe_respond_with_stale_entry (client_queries pending_query).

(** ClientQueriesHandler::maybe_send_probe_to_offline_servers.
    [offline_servers] is built with [Some(&upstream_server) =>
    Some(upstream_server)], so it holds copies of the registry entries of
    the candidates found in the registry; [random_offline_server] is one
    copy, picked by the draw [sample] of [Range::new(0, len)], and the
    [last_probe_ts] stamp is written to that copy.  The registry is returned
    as it came in. *)
Definition maybe_send_probe_to_offline_servers (query_packet : Packet)
    (upstream_servers_for_query : list UpstreamServerForQuery)
    (upstream_servers : gmap SocketAddr UpstreamServer)
    (net_ext_udp_socket : N) (sample : nat) (now : N)
    : option (gmap SocketAddr UpstreamServer * result (option SocketAddr) unit * list Event) :=
  if Nat.eqb (length upstream_servers_for_query) 0 then Some (upstream_servers, Ok None, [])
  else
  let offline_servers :=
    omap (fun u => upstream_servers !! usq_socket_addr u) upstream_servers_for_query in
  if Nat.eqb (length offline_servers) 0 then Some (upstream_servers, Ok None, [])
  else
  random_offline_server ← index offline_servers sample;
  let rate_limited :=
    match last_probe_ts random_offline_server with
    | Some last => (now - last <? UPSTREAM_PROBES_DELAY_MS)%N
    | None => false
    end in
  if rate_limited then Some (upstream_servers, Ok None, [])
  else
  let random_offline_server := set_last_probe_ts random_offline_server (Some now) in
  let addr := socket_addr random_offline_server in
  if send_to net_ext_udp_socket addr query_packet
  then Some (upstream_servers, Ok (Some addr), [SendProbe net_ext_udp_socket addr query_packet])
  else Some (upstream_servers, Err tt, []).

(** NormalizedQuestion::new_pending_query.  [expect] on the codec result
    panics; [sample] is the draw of [Range::new(0, sockets.len())], which
    itself panics on an empty vector. *)
Definition new_pending_query (nq : NormalizedQuestion)
    (upstream_servers : list (option UpstreamServer)) (live : list nat)
    (is_retry : bool) (mode : LoadBalancingMode) (sample : nat)
    : option (result (Packet * NormalizedQuestionMinimal * nat * N) string) :=
  '(query_packet, normalized_question_minimal) ← build_query_packet nq false;
  r ← pick_upstream jumphash_slot nq upstream_servers live is_retry mode;
  match r with
  | Err e => Some (Err e)
  | Ok upstream_server_idx =>
      net_ext_udp_socket ← index net_ext_udp_sockets sample;
      Some (Ok (query_packet, normalized_question_minimal, upstream_server_idx,
                net_ext_udp_socket))
  end.

(** ClientQueriesHandler::fut_process_client_query, up to arming the
    first timer.  The result is the new state, the messages sent, and the
    captured data of the armed timer.  [live_pick] is the live-index vector
    as [pick_upstream] reads it: the read lock taken on
    [upstream_servers_live_arc] at the all-down check is released at once,
    and the vector is shared with the other reactors through its [Arc]. *)
Definition fut_process_client_query (config : Config) (st : State)
    (client_query : ClientQuery) (live_pick : list nat)
    (socket_sample probe_sample : nat) (now : N)
    : option (State * list Event * option FirstTimeout) :=
  if Nat.eqb (length (upstream_servers_live st)) 0
  then Some (st, maybe_respond_with_stale_entry client_query, None)
  else
  let nq := normalized_question client_query in
  let key := {| normalized_question_key := key_of nq; custom_hash := (0, 0)%N |} in
  '(st, _) ← cap_pending_queries config st;
  let '(st, attached) := maybe_add_to_existing_pending_query st key client_query in
  if attached then Some (st, [], None)
  else
  r ← new_pending_query nq
        (servers_by_idx (upstream_servers st) (upstream_servers_for_query client_query))
        live_pick false (lbmode config) socket_sample;
  match r with
  | Err _ => Some (st, [], None)
  | Ok (query_packet, normalized_question_minimal, upstream_server_idx, net_ext_udp_socket) =>
  '(reg, probe_socket_addr, probe_events) ←
     maybe_send_probe_to_offline_servers query_packet
       (upstream_servers_for_query client_query) (upstream_servers st)
       net_ext_udp_socket probe_sample now;
  let st := set_upstream_servers st reg in
  upstream_server_for_query ←
    index (upstream_servers_for_query client_query) upstream_server_idx;
  match reg !! usq_socket_addr upstream_server_for_query with
  | None => Some (st, probe_events, None)
  | Some upstream_server =>
      let pending_query :=
        {| normalized_question_minimal := normalized_question_minimal;
           local_port := net_ext_udp_socket;
           client_queries := [client_query];
           ts := now;
           upstream_server_idx := upstream_server_idx;
           probed_socket_addr :=
             match probe_socket_addr with Ok (Some a) => Some a | _ => None end;
           pq_custom_hash := (0, 0)%N |} in
      let st := set_waiting_clients_count st (waiting_clients_count st + 1)%N in
      let upstream_server := prepare_send upstream_server in
      let upstream_server := set_pending_queries_count upstream_server
            (saturating_add (pending_queries_count upstream_server) 1) in
      let st := set_upstream_servers st
            (<[usq_socket_addr upstream_server_for_query := upstream_server]> reg) in
      let st := set_pending_queries st (<[key := pending_query]> (pending_queries st)) in
      Some (st,
            probe_events ++ [SendUpstream net_ext_udp_socket (socket_addr upstream_server)
                               query_packet],
            Some {| ft_upstream_server_for_query := upstream_server_for_query;
                    ft_normalized_question := nq;
                    ft_upstream_servers_for_query :=
                      upstream_servers_for_query client_query |})
  end
  end.

(** The in-place update of the pending query on retry. *)
Definition retarget_pending_query (p : PendingQuery) nqm port now idx : PendingQuery :=
  {| normalized_question_minimal := nqm; local_port := port;
     client_queries := client_queries p; ts := now; upstream_server_idx := idx;
     probed_socket_addr := probed_socket_addr p; pq_custom_hash := pq_custom_hash p |}.

(** ClientQueriesHandler::fut_retry_query, up to arming the retry timer.
    The statement [upstream_server.pending_queries_count.saturating_sub(1);]
    discards its value and changes nothing. *)
Definition fut_retry_query (config : Config) (st : State)
    (normalized_question : NormalizedQuestion)
    (upstream_servers_for_query : list UpstreamServerForQuery)
    (socket_sample : nat) (now : N)
    : option (State * list Event * option SecondTimeout) :=
  let map := pending_queries st in
  let key := {| normalized_question_key := key_of normalized_question;
                custom_hash := (0, 0)%N |} in
  match map !! key with
  | None => Some (st, [], None)
  | Some pending_query =>
  let upstream_server_idx := upstream_server_idx pending_query in
  upstream_server_for_query ← index upstream_servers_for_query upstream_server_idx;
  match upstream_servers st !! usq_socket_addr upstream_server_for_query with
  | None => Some (st, [], None)
  | Some _ =>
  nq ← new_pending_query normalized_question
         (servers_by_idx (upstream_servers st) upstream_servers_for_query)
         (upstream_servers_live st) true (lbmode config) socket_sample;
  match nq with
  | Err _ => Some (st, [], None)
  | Ok (query_packet, normalized_question_minimal, upstream_server_idx, net_ext_udp_socket) =>
  upstream_server_for_query ← index upstream_servers_for_query upstream_server_idx;
  let reg := upstream_servers st in
  match reg !! usq_socket_addr upstream_server_for_query with
  | None => Some (st, [], None)
  | Some upstream_server =>
      let upstream_server := set_pending_queries_count upstream_server
            (saturating_add (pending_queries_count upstream_server) 1) in
      let st := set_upstream_servers st
            (<[usq_socket_addr upstream_server_for_query := upstream_server]> reg) in
      let pending_query := retarget_pending_query pending_query
            normalized_question_minimal net_ext_udp_socket now upstream_server_idx in
      let st := set_pending_queries st (<[key := pending_query]> map) in
      Some (st,
            [SendUpstream net_ext_udp_socket (usq_socket_addr upstream_server_for_query)
               query_packet],
            Some {| st_upstream_server_for_query := upstream_server_for_query;
                    st_key := key |})
  end
  end
  end
  end.

(** The [or_else] closure of the first-attempt timer in
    fut_process_client_query: decrement and record a failure on the server
    of the first attempt, then fut_retry_query. *)
Definition on_first_timeout (config : Config) (st : State) (t : FirstTimeout)
    (socket_sample : nat) (now : N)
    : option (State * list Event * option SecondTimeout) :=
  let reg := upstream_servers st in
  let addr := usq_socket_addr (ft_upstream_server_for_query t) in
  let st :=
    match reg !! addr with
    | None => st
    | Some upstream_server =>
        set_upstream_servers st
          (<[addr := record_failure (set_pending_queries_count upstream_server
                        (saturating_sub (pending_queries_count upstream_server) 1))]> reg)
    end in
  fut_retry_query config st (ft_normalized_question t)
    (ft_upstream_servers_for_query t) socket_sample now.

(** The [or_else] closure of the retry timer in fut_retry_query.  The
    usize [fetch_sub] has no assertion here and wraps. *)
Definition on_second_timeout (st : State) (t : SecondTimeout) : State * list Event :=
  let reg := upstream_servers st in
  let addr := usq_socket_addr (st_upstream_server_for_query t) in
  match reg !! addr with
  | None => (st, [])
  | Some upstream_server =>
      let st := set_upstream_servers st
          (<[addr := record_failure (set_pending_queries_count upstream_server
                        (saturating_sub (pending_queries_count upstream_server) 1))]> reg) in
      match pending_queries st !! st_key t with
      | Some pending_query =>
          let fut := maybe_respond_to_all_clients_with_stale_entry pending_query in
          (set_waiting_clients_count
             (set_pending_queries st (delete (st_key t) (pending_queries st)))
             (wrapping_sub (waiting_clients_count st)
                (N.of_nat (length (client_queries pending_query)))),
           fut)
      | None => (st, [])
      end
  end.

(** Histories of the handler: client queries, the two timers, and changes
    made to the registry and the live vector by the failure/recovery logic
    outside this module.  The timers' captured data is arbitrary. *)
Inductive handler_step (config : Config) : State -> State -> Prop :=
| step_client_query st cq live_pick s1 s2 now st' evs t :
    fut_process_client_query config st cq live_pick s1 s2 now = Some (st', evs, t) ->
    handler_step config st st'
| step_first_timeout st ft s now st' evs t :
    on_first_timeout config st ft s now = Some (st', evs, t) ->
    handler_step config st st'
| step_second_timeout st t st' evs :
    on_second_timeout st t = (st', evs) ->
    handler_step config st st'
| step_health st reg live :
    handler_step config st
      {| pending_queries := pending_queries st; upstream_servers := reg;
         upstream_servers_live := live;
         waiting_clients_count := waiting_clients_count st |}.

End Handler.

Definition initial_state (reg : gmap SocketAddr UpstreamServer) (live : list nat) : State :=
  {| pending_queries := ∅; upstream_servers := reg; upstream_servers_live := live;
     waiting_clients_count := 0%N |}.

(** The accounting invariant of the waiting-clients counter. *)
Definition waiting_inv (st : State) : Prop :=
  waiting_sum (pending_queries st) = waiting_clients_count st.

(** ** A concrete instance of the collaborators, for examples *)

Module Demo.
Local Open Scope N_scope.
Definition key_of (nq : NormalizedQuestion) : NormalizedQuestionKey :=
  {| nqk_qname := qname nq; nqk_qtype := qtype nq; nqk_qclass := qclass nq |}.
Definition no_cache (_ : NormalizedQuestion) (_ : N * N) : option Packet := None.
Definition stale_packet : Packet := [Byte.x81; Byte.x80].
Definition some_cache (_ : NormalizedQuestion) (_ : N * N) : option Packet :=
  Some stale_packet.
Definition query_packet : Packet := [Byte.x01; Byte.x00].
Definition build_query_packet (nq : NormalizedQuestion) (_ : bool)
    : option (Packet * NormalizedQuestionMinimal) :=
  Some (query_packet, {| nqm_tid := tid nq; nqm_flags := 0%N |}).
Definition failing_codec (_ : NormalizedQuestion) (_ : bool)
    : option (Packet * NormalizedQuestionMinimal) := None.
Definition servfail_packet : Packet := [Byte.x81; Byte.x82].
Definition build_servfail_packet (_ : NormalizedQuestion) : option Packet :=
  Some servfail_packet.
Definition slot0 (_ : string) (_ : N) : N := 0.
Definition prepare_send (s : UpstreamServer) : UpstreamServer := s.
Definition record_failure (s : UpstreamServer) : UpstreamServer :=
  {| remote_addr := remote_addr s; socket_addr := socket_addr s;
     pending_queries_count := pending_queries_count s;
     failures := (failures s + 1)%N; offline := offline s;
     last_probe_ts := last_probe_ts s |}.
Definition send_ok (_ : N) (_ : SocketAddr) (_ : Packet) : bool := true.
Definition sockets : list N := [40000%N].

Definition server (addr : SocketAddr) (off : bool) : UpstreamServer :=
  {| remote_addr := "upstream"; socket_addr := addr; pending_queries_count := 0%N;
     failures := 0%N; offline := off; last_probe_ts := None |}.
(** A is 1, live; C is 3, offline. *)
Definition registry : gmap SocketAddr UpstreamServer :=
  <[1%N := server 1 false]> (<[3%N := server 3 true]> ∅).
Definition question (name : string) : NormalizedQuestion :=
  {| qname := name; qtype := 1%N; qclass := 1%N; tid := 7%N |}.
Definition client (name : string) (h : N * N) (cands : list SocketAddr) (id : N)
    : ClientQuery :=
  {| normalized_question := question name; cq_custom_hash := h;
     upstream_servers_for_query := map (fun a => {| usq_socket_addr := a |}) cands;
     client_id := id |}.
Definition config : Config := {| max_waiting_clients := 2%N; lbmode := Fallback |}.
(** Limits that one waiting client, or none, reaches. *)
Definition config1 : Config := {| max_waiting_clients := 1%N; lbmode := Fallback |}.
Definition config0 : Config := {| max_waiting_clients := 0%N; lbmode := Fallback |}.
End Demo.

(** ** The waiting-clients sum *)

(** [wrapping_sub] is usize subtraction: modulo 2^64 on operands below it. *)
Lemma wrapping_sub_mod (a b : N) :
  (a < USIZE_MODULUS)%N -> (b < USIZE_MODULUS)%N ->
  Z.of_N (wrapping_sub a b) = ((Z.of_N a - Z.of_N b) mod Z.of_N USIZE_MODULUS)%Z.
Proof.
  unfold wrapping_sub. intros Ha Hb.
  destruct (b <=? a)%N eqn:Hle.
  - apply N.leb_le in Hle. rewrite Z.mod_small by lia. lia.
  - apply N.leb_gt in Hle.
    rewrite (N.mod_small (b - a)) by lia.
    rewrite N.mod_small by lia.
    apply (Z.mod_unique _ _ (-1)%Z); lia.
Qed.

Lemma waiting_sum_insert_new (m : gmap PendingQueryKey PendingQuery) k p :
  m !! k = None ->
  waiting_sum (<[k:=p]> m) = (N.of_nat (length (client_queries p)) + waiting_sum m)%N.
Proof.
  intros H. unfold waiting_sum. rewrite map_fold_insert_L; [done | | done].
  intros; lia.
Qed.

Lemma waiting_sum_delete (m : gmap PendingQueryKey PendingQuery) k p :
  m !! k = Some p ->
  waiting_sum m = (N.of_nat (length (client_queries p)) + waiting_sum (delete k m))%N.
Proof.
  intros H. unfold waiting_sum.
  exact (map_fold_delete_L
           (fun _ p acc => N.of_nat (length (client_queries p)) + acc)%N 0%N k p m
           ltac:(intros; simpl; lia) H).
Qed.

Lemma waiting_sum_insert_existing (m : gmap PendingQueryKey PendingQuery) k p p' :
  m !! k = Some p ->
  (waiting_sum (<[k:=p']> m) + N.of_nat (length (client_queries p)) =
   N.of_nat (length (client_queries p')) + waiting_sum m)%N.
Proof.
  intros H. rewrite <- insert_delete_eq.
  rewrite waiting_sum_insert_new by apply lookup_delete_eq.
  rewrite (waiting_sum_delete m k p H). lia.
Qed.

Lemma waiting_sum_empty : waiting_sum ∅ = 0%N.
Proof. reflexivity. Qed.

(** The first key of a non-empty map is one of its keys. *)
Lemma head_map_to_list_lookup (m : gmap PendingQueryKey PendingQuery) k p :
  head (map_to_list m) = Some (k, p) -> m !! k = Some p.
Proof.
  intros H. apply elem_of_map_to_list.
  destruct (map_to_list m) as [|x l]; simpl in H; [done | injection H as ->].
  apply list_elem_of_here.
Qed.

Lemma head_map_to_list_nonempty (m : gmap PendingQueryKey PendingQuery) :
  m ≠ ∅ -> exists k p, head (map_to_list m) = Some (k, p).
Proof.
  intros Hne. destruct (map_to_list m) as [|[k p] l] eqn:E.
  - apply map_to_list_empty_iff in E. done.
  - eauto.
Qed.

(** cap_pending_queries keeps the accounting. *)
Lemma cap_pending_queries_inv config st st' b :
  waiting_inv st -> cap_pending_queries config st = Some (st', b) -> waiting_inv st'.
Proof.
  unfold cap_pending_queries, waiting_inv. intros Hinv H.
  destruct (_ <? _)%N; [by injection H as <- _|].
  destruct (head _) as [[key p0]|]; [|by injection H as <- _].
  destruct (pending_queries st !! key) as [p|] eqn:Hk; [|by injection H as <- _].
  destruct (_ <? _)%N eqn:Hlt; [done|]. injection H as <- _. simpl.
  apply N.ltb_ge in Hlt. rewrite (waiting_sum_delete _ _ _ Hk) in Hinv. lia.
Qed.

Lemma maybe_add_to_existing_pending_query_inv st key cq st' b :
  waiting_inv st -> maybe_add_to_existing_pending_query st key cq = (st', b) ->
  waiting_inv st' /\ (b = false -> st' = st /\ pending_queries st !! key = None).
Proof.
  unfold maybe_add_to_existing_pending_query, waiting_inv. intros Hinv H.
  destruct (pending_queries st !! key) as [p|] eqn:Hk; injection H as <- <-;
    [split; [|done] | done].
  simpl. pose proof (waiting_sum_insert_existing _ _ _ (push_client_query p cq) Hk) as E.
  assert (length (client_queries (push_client_query p cq)) =
          S (length (client_queries p))) as L.
  { unfold push_client_query; simpl. rewrite length_app. simpl. lia. }
  rewrite L in E. lia.
Qed.

Lemma maybe_send_probe_registry send_to delay pkt usqs reg sock sample now reg' r evs :
  maybe_send_probe_to_offline_servers send_to delay pkt usqs reg sock sample now =
    Some (reg', r, evs) -> reg' = reg.
Proof.
  unfold maybe_send_probe_to_offline_servers. intros H.
  repeat (unfold mbind, option_bind in H; case_match; simplify_eq/=; try done).
Qed.

(** Case analysis on the matches of a hypothesis. *)
Ltac split_matches H :=
  repeat (cbn [mbind option_bind] in H;
          match type of H with
          | context [match ?x with _ => _ end] => destruct x eqn:?
          end; try discriminate H).

Lemma fut_process_client_query_inv key_of cache_get2 bqp bsp slot prep send_to socks delay
    config st cq live s1 s2 now st' evs t :
  waiting_inv st ->
  fut_process_client_query key_of cache_get2 bqp bsp slot prep send_to socks delay
    config st cq live s1 s2 now = Some (st', evs, t) ->
  waiting_inv st'.
Proof.
  unfold fut_process_client_query. intros Hinv H.
  destruct (Nat.eqb _ 0); [by injection H as <- _ _|].
  destruct (cap_pending_queries config st) as [[st1 b1]|] eqn:Hcap; [|done].
  cbn [mbind option_bind] in H.
  apply (cap_pending_queries_inv _ _ _ _ Hinv) in Hcap.
  destruct (maybe_add_to_existing_pending_query st1 _ cq) as [st2 [|]] eqn:Hadd.
  { injection H as <- _ _. exact (proj1 (maybe_add_to_existing_pending_query_inv _ _ _ _ _ Hcap Hadd)). }
  destruct (maybe_add_to_existing_pending_query_inv _ _ _ _ _ Hcap Hadd) as [_ Hf].
  destruct (Hf eq_refl) as [-> Hnone].
  destruct (new_pending_query _ _ _ _ _ _ _ _ _) as [[[[[pkt nqm] idx] sock]|e]|];
    cbn [mbind option_bind] in H; [|by injection H as <- _ _|done].
  destruct (maybe_send_probe_to_offline_servers _ _ _ _ _ _ _ _) as [[[reg r] pevs]|] eqn:Hpr;
    cbn [mbind option_bind] in H; [|done].
  apply maybe_send_probe_registry in Hpr as ->.
  destruct (index _ idx) as [usq|]; cbn [mbind option_bind] in H; [|done].
  destruct (upstream_servers st1 !! _) as [srv|]; [|by injection H as <- _ _].
  injection H as <- _ _. unfold waiting_inv in *. simpl.
  rewrite waiting_sum_insert_new by exact Hnone. simpl. lia.
Qed.

Lemma fut_retry_query_inv key_of bqp slot socks config st nq usqs s now st' evs t :
  waiting_inv st ->
  fut_retry_query key_of bqp slot socks config st nq usqs s now = Some (st', evs, t) ->
  waiting_inv st'.
Proof.
  unfold fut_retry_query. intros Hinv H.
  destruct (pending_queries st !! _) as [p|] eqn:Hk; [|by injection H as <- _ _].
  destruct (index usqs _); cbn [mbind option_bind] in H; [|done].
  destruct (upstream_servers st !! _); [|by injection H as <- _ _].
  destruct (new_pending_query _ _ _ _ _ _ _ _ _) as [[[[[pkt nqm] idx] sock]|e]|];
    cbn [mbind option_bind] in H; [|by injection H as <- _ _|done].
  destruct (index usqs idx); cbn [mbind option_bind] in H; [|done].
  destruct (upstream_servers st !! _); [|by injection H as <- _ _].
  injection H as <- _ _. unfold waiting_inv in *. simpl.
  pose proof (waiting_sum_insert_existing _ _ _
                (retarget_pending_query p nqm sock now idx) Hk) as E.
  simpl in E. lia.
Qed.

Lemma on_first_timeout_inv key_of bqp slot record_failure socks config st ft s now st' evs t :
  waiting_inv st ->
  on_first_timeout key_of bqp slot record_failure socks config st ft s now = Some (st', evs, t) ->
  waiting_inv st'.
Proof.
  unfold on_first_timeout. intros Hinv H.
  eapply fut_retry_query_inv; [|exact H].
  by destruct (upstream_servers st !! _).
Qed.

Lemma on_second_timeout_inv cache_get2 bsp record_failure st t st' evs :
  waiting_inv st ->
  on_second_timeout cache_get2 bsp record_failure st t = (st', evs) ->
  waiting_inv st'.
Proof.
  unfold on_second_timeout, waiting_inv. intros Hinv H.
  destruct (upstream_servers st !! _); [|by injection H as <- _].
  simpl in H. destruct (pending_queries st !! st_key t) as [p|] eqn:Hk;
    injection H as <- _; simpl; [|done].
  rewrite (waiting_sum_delete _ _ _ Hk) in Hinv. unfold wrapping_sub.
  rewrite (proj2 (N.leb_le _ _)) by lia. lia.
Qed.

Lemma handler_step_inv key_of cache_get2 bqp bsp slot prep record_failure send_to socks delay
    config st st' :
  waiting_inv st ->
  handler_step key_of cache_get2 bqp bsp slot prep record_failure send_to socks delay
    config st st' ->
  waiting_inv st'.
Proof.
  intros Hinv Hs. destruct Hs.
  - eapply fut_process_client_query_inv; eauto.
  - eapply on_first_timeout_inv; eauto.
  - eapply on_second_timeout_inv; eauto.
  - exact Hinv.
Qed.

Lemma handler_steps_inv key_of cache_get2 bqp bsp slot prep record_failure send_to socks delay
    config st st' :
  waiting_inv st ->
  rtc (handler_step key_of cache_get2 bqp bsp slot prep record_failure send_to socks delay
         config) st st' ->
  waiting_inv st'.
Proof.
  intros Hinv Hs. induction Hs as [|x y z Hxy _ IH]; [done|].
  apply IH. eapply handler_step_inv; eauto.
Qed.

(** ** C5: the waiting-clients counter *)

(** C5: at every quiescent point of every history of the handler started
    from an empty pending table and a zero counter (client queries with
    their admission eviction, coalescing and new insertions, the two timer
    transitions including the second-timeout removal, and external changes
    to the registry and live vector), the sum of the lengths of the
    [client_queries] vectors over the pending table equals
    [waiting_clients_count]. *)
Theorem waiting_clients_count_accounting key_of cache_get2 bqp bsp slot prep record_failure
    send_to socks delay config reg live st :
  rtc (handler_step key_of cache_get2 bqp bsp slot prep record_failure send_to socks delay
         config) (initial_state reg live) st ->
  waiting_sum (pending_queries st) = waiting_clients_count st.
Proof.
  intros Hs. apply (handler_steps_inv _ _ _ _ _ _ _ _ _ _ _ _ _ (reflexivity _) Hs).
Qed.

(** ** C9: admission control *)

(** C9: for every state whose counter matches the pending table (the C5
    accounting) a call of cap_pending_queries: below [max_waiting_clients]
    it evicts nothing, leaves the state unchanged and reports [false]; at
    or above it with a non-empty table it removes one entry, decrements
    [waiting_clients_count] by exactly that entry's client count, changes
    nothing else and reports [true]; at or above it with an empty table it
    changes nothing and reports [false]. *)
Theorem cap_pending_queries_spec config st :
  waiting_sum (pending_queries st) = waiting_clients_count st ->
  ((waiting_clients_count st < max_waiting_clients config)%N ->
     cap_pending_queries config st = Some (st, false)) /\
  ((max_waiting_clients config <= waiting_clients_count st)%N ->
     pending_queries st ≠ ∅ ->
     exists k p, pending_queries st !! k = Some p /\
       cap_pending_queries config st =
         Some (set_waiting_clients_count
                 (set_pending_queries st (delete k (pending_queries st)))
                 (waiting_clients_count st - N.of_nat (length (client_queries p)))%N,
               true) /\
       (N.of_nat (length (client_queries p)) <= waiting_clients_count st)%N) /\
  ((max_waiting_clients config <= waiting_clients_count st)%N ->
     pending_queries st = ∅ -> cap_pending_queries config st = Some (st, false)).
Proof.
  intros Hinv. unfold cap_pending_queries. split; [|split].
  - intros Hlt. apply N.ltb_lt in Hlt. by rewrite Hlt.
  - intros Hge Hne. apply N.ltb_ge in Hge. rewrite Hge.
    destruct (head_map_to_list_nonempty _ Hne) as (k & p & Hh). rewrite Hh.
    pose proof (head_map_to_list_lookup _ _ _ Hh) as Hk.
    exists k, p. rewrite Hk.
    pose proof (waiting_sum_delete _ _ _ Hk) as E.
    assert (Hle : (N.of_nat (length (client_queries p)) <= waiting_clients_count st)%N) by lia.
    split; [done|]. split; [|done].
    assert ((waiting_clients_count st <? N.of_nat (length (client_queries p)))%N = false)
      as -> by (apply N.ltb_ge; lia).
    done.
  - intros Hge ->. apply N.ltb_ge in Hge. by rewrite Hge.
Qed.

(** ** C8: retry selection in Uniform mode *)

Lemma succ_mod_ne (i n : nat) : 2 <= n -> i < n -> Nat.modulo (i + 1) n <> i.
Proof.
  intros Hn Hi. destruct (decide (i + 1 = n)) as [E|Hne].
  - rewrite E, Nat.Div0.mod_same. lia.
  - rewrite Nat.mod_small by lia. lia.
Qed.

(** C8: in Uniform mode, for every question and every live-index vector of
    at least two distinct server indices, when the primary pick is the
    index [live[i]] with [i] the jump-hash slot, the retry pick is
    [live[(i + 1) mod live_count]], and it differs from the primary pick. *)
Theorem uniform_retry_differs slot nq servers (live : list nat) a :
  2 <= length live -> NoDup live ->
  pick_upstream slot nq servers live false Uniform = Some (Ok a) ->
  exists i b, live !! i = Some a /\ live !! Nat.modulo (i + 1) (length live) = Some b /\
    pick_upstream slot nq servers live true Uniform = Some (Ok b) /\ b <> a.
Proof.
  intros Hlen Hnd. unfold pick_upstream, index.
  destruct (Nat.eqb_spec (length live) 0) as [E|_]; [lia|].
  set (i0 := N.to_nat (slot (qname nq) (N.of_nat (length live) mod 2 ^ 32)%N)).
  destruct (live !! i0) as [x|] eqn:Hx; simpl; [|done].
  intros [= ->].
  pose proof (lookup_lt_Some _ _ _ Hx) as Hi0.
  assert (Hm : Nat.modulo (i0 + 1) (length live) < length live)
    by (apply Nat.mod_upper_bound; lia).
  destruct (lookup_lt_is_Some_2 _ _ Hm) as [b Hb].
  exists i0, b. rewrite Hb. split; [done|]. split; [done|]. split; [done|].
  intros ->. apply (succ_mod_ne i0 (length live)); [lia|lia|].
  eapply NoDup_lookup; eauto.
Qed.

(** ** C10: pending keys and coalescing *)




(** ** Concrete runs *)

Module Runs.
Import Demo.
Local Open Scope N_scope.

Definition st0 : State := initial_state registry [0%nat].
Definition cq_a : ClientQuery := client "a" (0, 0) [1; 3] 1.
Definition cq_b : ClientQuery := client "b" (0, 0) [1; 3] 2.
Definition key_a : PendingQueryKey :=
  {| normalized_question_key := key_of (question "a"); custom_hash := (0, 0) |}.

Definition process (cache : NormalizedQuestion -> N * N -> option Packet)
    (codec : NormalizedQuestion -> bool -> option (Packet * NormalizedQuestionMinimal))
    (st : State) (cq : ClientQuery) (live_pick : list nat) (probe_sample : nat) (now : N) :=
  fut_process_client_query key_of cache codec build_servfail_packet slot0 prepare_send
    send_ok sockets 1000 config st cq live_pick 0 probe_sample now.

(** The first query, at time 0, whose probe draw picks server 3. *)
Definition run_a := process no_cache build_query_packet st0 cq_a [0%nat] 1 0.
Definition st_a : State :=
  match run_a with Some (st, _, _) => st | None => st0 end.
Definition ft_a : FirstTimeout :=
  match run_a with
  | Some (_, _, Some t) => t
  | _ => {| ft_upstream_server_for_query := {| usq_socket_addr := 1 |};
            ft_normalized_question := question "a";
            ft_upstream_servers_for_query := [] |}
  end.

Definition evs_a : list Event :=
  match run_a with Some (_, evs, _) => evs | None => [] end.
Definition no_servfail (_ : NormalizedQuestion) : option Packet := None.

(** The number of probes sent to an address. *)
Fixpoint probes_to (addr : SocketAddr) (evs : list Event) : nat :=
  match evs with
  | [] => 0%nat
  | SendProbe _ a _ :: evs' =>
      if N.eqb a addr then S (probes_to addr evs') else probes_to addr evs'
  | _ :: evs' => probes_to addr evs'
  end.

(** Server 1, live, with one query in flight. *)
Definition registry_busy : gmap SocketAddr UpstreamServer :=
  <[1 := set_pending_queries_count (server 1 false) 1]> registry.
End Runs.

(** C1 (code_bug): live vector non-empty at the all-down check, empty when
    the load balancer reads it, cache holding an entry for the question:
    fut_process_client_query returns with no message at all, no stale
    entry and no SERVFAIL, while the all-down shortcut answers the same
    query with the cached packet. *)
Theorem alldown_at_pick_drops_client :
  Runs.process Demo.some_cache Demo.build_query_packet Runs.st0 Runs.cq_a [] 0 0 =
    Some (Runs.st0, [], None) /\
  Runs.process Demo.some_cache Demo.build_query_packet (initial_state Demo.registry [])
    Runs.cq_a [] 0 0 =
    Some (initial_state Demo.registry [], [Respond Runs.cq_a Demo.stale_packet], None).
Proof. split; vm_compute; reflexivity. Qed.

(** C2 (code_bug): after the first query for "a" was sent to server 1, the
    live vector becomes empty and the first timer fires: the rebuild of
    the retry attempt gets AllDown and fut_retry_query returns with no
    message to the waiting client, the pending query still in the table
    and the client still counted. *)
Theorem retry_alldown_keeps_pending_query :
  match on_first_timeout Demo.key_of Demo.build_query_packet Demo.slot0 Demo.record_failure
          Demo.sockets Demo.config
          {| pending_queries := pending_queries Runs.st_a;
             upstream_servers := upstream_servers Runs.st_a;
             upstream_servers_live := [];
             waiting_clients_count := waiting_clients_count Runs.st_a |}
          Runs.ft_a 0 1000%N with
  | Some (st', evs, t) =>
      evs = [] /\ t = None /\ pending_queries st' !! Runs.key_a <> None /\
      waiting_clients_count st' = 1%N
  | None => False
  end.
Proof. vm_compute. repeat split; congruence. Qed.

(** C3 (code_bug): the candidate set is server 1 alone, which is live
    ([offline = false]), so its intersection with the offline servers is
    empty; maybe_send_probe_to_offline_servers still sends it a probe. *)
Theorem probe_sent_to_live_server :
  offline (Demo.server 1%N false) = false /\
  maybe_send_probe_to_offline_servers Demo.send_ok 1000%N Demo.query_packet
    [{| usq_socket_addr := 1%N |}] Demo.registry 40000%N 0 0%N =
    Some (Demo.registry, Ok (Some 1%N), [SendProbe 40000%N 1%N Demo.query_packet]).
Proof. split; vm_compute; reflexivity. Qed.

(** C7 (code_bug): server 3 is offline with no probe stamp.  The query for
    "a" at time 0 probes it; the registry's [last_probe_ts] of server 3 is
    still unset afterwards, since the stamp went to a copy; the query for
    "b" at time 10, with [UPSTREAM_PROBES_DELAY_MS] = 1000, probes it
    again. *)
Theorem probe_stamp_not_recorded :
  match Runs.run_a with
  | Some (st1, evs1, _) =>
      Runs.probes_to 3%N evs1 = 1%nat /\
      option_map last_probe_ts (upstream_servers st1 !! 3%N) = Some None /\
      match Runs.process Demo.no_cache Demo.build_query_packet st1 Runs.cq_b [0%nat] 1 10%N with
      | Some (_, evs2, _) => Runs.probes_to 3%N evs2 = 1%nat
      | None => False
      end
  | None => False
  end.
Proof. vm_compute. repeat split. Qed.

(** C4, counterexample: with a codec that fails to build the query packet,
    the first query for "a" makes fut_process_client_query panic (the
    [expect] in new_pending_query) instead of returning. *)
Theorem query_codec_error_counterexample :
  Runs.process Demo.no_cache Demo.failing_codec Runs.st0 Runs.cq_a [0%nat] 0 0%N = None.
Proof. vm_compute. reflexivity. Qed.

(** C4, amended: when the upstream query packet cannot be built for a
    query that reaches the build step (live vector non-empty, admission
    control done, with or without an eviction, and no pending query to
    join afterwards), the handler panics; the silent drop with no
    response and no panic is the degradation path: with no cache entry and
    no buildable SERVFAIL packet, maybe_respond_with_stale_entry sends
    nothing, and the all-down shortcut returns normally with the state
    unchanged. *)
Theorem query_codec_error_panics key_of cache_get2 bqp bsp slot prep send_to socks delay
    config st cq live s1 s2 now :
  (bqp (normalized_question cq) false = None ->
   length (upstream_servers_live st) <> 0%nat ->
   forall st1 evicted, cap_pending_queries config st = Some (st1, evicted) ->
   pending_queries st1 !! {| normalized_question_key := key_of (normalized_question cq);
                             custom_hash := (0, 0)%N |} = None ->
   fut_process_client_query key_of cache_get2 bqp bsp slot prep send_to socks delay
     config st cq live s1 s2 now = None) /\
  (cache_get2 (normalized_question cq) (cq_custom_hash cq) = None ->
   bsp (normalized_question cq) = None ->
   maybe_respond_with_stale_entry cache_get2 bsp cq = [] /\
   (upstream_servers_live st = [] ->
    fut_process_client_query key_of cache_get2 bqp bsp slot prep send_to socks delay
      config st cq live s1 s2 now = Some (st, [], None))).
Proof.
  split.
  - intros Hb Hl st1 evicted Hcap Hk. unfold fut_process_client_query.
    apply Nat.eqb_neq in Hl. rewrite Hl, Hcap.
    cbn [mbind option_bind]. unfold maybe_add_to_existing_pending_query. rewrite Hk.
    unfold new_pending_query. rewrite Hb. done.
  - intros Hc Hs.
    assert (E : maybe_respond_with_stale_entry cache_get2 bsp cq = [])
      by (unfold maybe_respond_with_stale_entry; by rewrite Hc, Hs).
    split; [done|]. intros Hl. unfold fut_process_client_query. rewrite Hl. simpl.
    by rewrite E.
Qed.

(** C6, counterexample: server 1 has one query in flight and no failure;
    the first timer of a query for "a" fires when no pending query for "a"
    is left: the server's [pending_queries_count] drops to 0 and a failure
    is recorded. *)
Theorem first_timeout_absent_counterexample :
  option_map pending_queries_count (Runs.registry_busy !! 1%N) = Some 1%N /\
  option_map failures (Runs.registry_busy !! 1%N) = Some 0%N /\
  match on_first_timeout Demo.key_of Demo.build_query_packet Demo.slot0 Demo.record_failure
          Demo.sockets Demo.config (initial_state Runs.registry_busy [0%nat])
          {| ft_upstream_server_for_query := {| usq_socket_addr := 1%N |};
             ft_normalized_question := Demo.question "a";
             ft_upstream_servers_for_query := [{| usq_socket_addr := 1%N |}] |} 0 0%N with
  | Some (st', _, _) =>
      option_map pending_queries_count (upstream_servers st' !! 1%N) = Some 0%N /\
      option_map failures (upstream_servers st' !! 1%N) = Some 1%N
  | None => False
  end.
Proof. vm_compute. repeat split. Qed.

(** C6, amended: when the first timer fires and no pending query is left
    for the question, the server of the first attempt, if still in the
    registry, has its [pending_queries_count] decremented (saturating) and
    a failure recorded; nothing else changes: no other server, the pending
    table, the live vector and the waiting-clients counter are as before,
    nothing is sent and no retry timer is armed. *)
Theorem first_timeout_absent_pending key_of bqp slot record_failure socks config st ft s now :
  pending_queries st !! {| normalized_question_key := key_of (ft_normalized_question ft);
                           custom_hash := (0, 0)%N |} = None ->
  let a := usq_socket_addr (ft_upstream_server_for_query ft) in
  on_first_timeout key_of bqp slot record_failure socks config st ft s now =
    Some (set_upstream_servers st
            match upstream_servers st !! a with
            | None => upstream_servers st
            | Some srv =>
                <[a := record_failure (set_pending_queries_count srv
                         (saturating_sub (pending_queries_count srv) 1))]> (upstream_servers st)
            end, [], None).
Proof.
  intros Hk a. unfold on_first_timeout. fold a.
  destruct (upstream_servers st !! a) as [srv|].
  - unfold fut_retry_query. simpl. by rewrite Hk.
  - unfold fut_retry_query. rewrite Hk. by destruct st.
Qed.

(** ** Witnesses *)

Lemma waiting_clients_count_accounting_witness :
  rtc (handler_step Demo.key_of Demo.no_cache Demo.build_query_packet
         Demo.build_servfail_packet Demo.slot0 Demo.prepare_send Demo.record_failure
         Demo.send_ok Demo.sockets 1000%N Demo.config)
      (initial_state Demo.registry [0%nat]) Runs.st_a /\
  waiting_sum (pending_queries Runs.st_a) = waiting_clients_count Runs.st_a.
Proof.
  assert (H : rtc (handler_step Demo.key_of Demo.no_cache Demo.build_query_packet
                     Demo.build_servfail_packet Demo.slot0 Demo.prepare_send
                     Demo.record_failure Demo.send_ok Demo.sockets 1000%N Demo.config)
                  (initial_state Demo.registry [0%nat]) Runs.st_a).
  { apply rtc_once.
    apply (step_client_query _ _ _ _ _ _ _ _ _ _ _ _ Runs.cq_a [0%nat] 0 1 0%N
             Runs.st_a Runs.evs_a (Some Runs.ft_a)).
    vm_compute. reflexivity. }
  split; [exact H|].
  exact (waiting_clients_count_accounting _ _ _ _ _ _ _ _ _ _ _ _ _ _ H).
Defined.

Lemma cap_pending_queries_spec_witness :
  cap_pending_queries Demo.config Runs.st_a = Some (Runs.st_a, false) /\
  (exists k p, pending_queries Runs.st_a !! k = Some p /\
     cap_pending_queries Demo.config1 Runs.st_a =
       Some (set_waiting_clients_count
               (set_pending_queries Runs.st_a (delete k (pending_queries Runs.st_a)))
               (waiting_clients_count Runs.st_a - N.of_nat (length (client_queries p)))%N,
             true) /\
     (N.of_nat (length (client_queries p)) <= waiting_clients_count Runs.st_a)%N) /\
  cap_pending_queries Demo.config0 Runs.st0 = Some (Runs.st0, false).
Proof.
  assert (H : waiting_sum (pending_queries Runs.st_a) = waiting_clients_count Runs.st_a)
    by (vm_compute; reflexivity).
  assert (H0 : waiting_sum (pending_queries Runs.st0) = waiting_clients_count Runs.st0)
    by (vm_compute; reflexivity).
  destruct (cap_pending_queries_spec Demo.config Runs.st_a H) as [Hbelow _].
  destruct (cap_pending_queries_spec Demo.config1 Runs.st_a H) as (_ & Hevict & _).
  destruct (cap_pending_queries_spec Demo.config0 Runs.st0 H0) as (_ & _ & Hempty).
  split; [apply Hbelow; vm_compute; reflexivity|].
  split.
  - apply Hevict; [vm_compute; discriminate|].
    intros E. assert (Hk : pending_queries Runs.st_a !! Runs.key_a = None)
      by (rewrite E; apply lookup_empty).
    vm_compute in Hk. discriminate.
  - apply Hempty; [vm_compute; discriminate|reflexivity].
Defined.

Lemma uniform_retry_differs_witness :
  exists i b, [4; 7] !! i = Some 4 /\ [4; 7] !! Nat.modulo (i + 1) 2 = Some b /\
    pick_upstream Demo.slot0 (Demo.question "a") [] [4; 7] true Uniform = Some (Ok b) /\
    b <> 4.
Proof.
  apply (uniform_retry_differs Demo.slot0 (Demo.question "a") [] [4; 7] 4).
  - simpl. lia.
  - repeat constructor; set_solver.
  - reflexivity.
Defined.


Lemma query_codec_error_panics_witness :
  cap_pending_queries Demo.config1 Runs.st_a =
    Some (set_waiting_clients_count
            (set_pending_queries Runs.st_a (delete Runs.key_a (pending_queries Runs.st_a)))
            0%N, true) /\
  fut_process_client_query Demo.key_of Demo.no_cache Demo.failing_codec Runs.no_servfail
    Demo.slot0 Demo.prepare_send Demo.send_ok Demo.sockets 1000%N Demo.config1
    Runs.st_a Runs.cq_a [0%nat] 0 0 0%N = None /\
  maybe_respond_with_stale_entry Demo.no_cache Runs.no_servfail Runs.cq_a = [].
Proof.
  assert (Hcap : cap_pending_queries Demo.config1 Runs.st_a =
    Some (set_waiting_clients_count
            (set_pending_queries Runs.st_a (delete Runs.key_a (pending_queries Runs.st_a)))
            0%N, true)) by (vm_compute; reflexivity).
  destruct (query_codec_error_panics Demo.key_of Demo.no_cache Demo.failing_codec
              Runs.no_servfail Demo.slot0 Demo.prepare_send Demo.send_ok Demo.sockets
              1000%N Demo.config1 Runs.st_a Runs.cq_a [0%nat] 0 0 0%N) as [H1 H2].
  split; [exact Hcap|]. split.
  - apply (H1 eq_refl ltac:(vm_compute; discriminate) _ _ Hcap).
    vm_compute. reflexivity.
  - apply H2; reflexivity.
Defined.

Lemma first_timeout_absent_pending_witness :
  on_first_timeout Demo.key_of Demo.build_query_packet Demo.slot0 Demo.record_failure
    Demo.sockets Demo.config (initial_state Runs.registry_busy [0%nat])
    {| ft_upstream_server_for_query := {| usq_socket_addr := 1%N |};
       ft_normalized_question := Demo.question "a";
       ft_upstream_servers_for_query := [{| usq_socket_addr := 1%N |}] |} 0 0%N =
  Some (set_upstream_servers (initial_state Runs.registry_busy [0%nat])
          (<[1%N := Demo.record_failure (set_pending_queries_count
                      (set_pending_queries_count (Demo.server 1%N false) 1%N) 0%N)]>
             Runs.registry_busy), [], None).
Proof.
  apply (first_timeout_absent_pending Demo.key_of Demo.build_query_packet Demo.slot0
           Demo.record_failure Demo.sockets Demo.config
           (initial_state Runs.registry_busy [0%nat])).
  reflexivity.
Defined.

(** ** Further properties of the load balancer *)

(** The pending count that P2 reads for a live index: [None] where the
    source's [upstream_servers[i]] panics. *)
Definition load_of (upstream_servers : list (option UpstreamServer)) (i : nat) : option N :=
  s ← index upstream_servers i ≫= id; Some (pending_queries_count s).

(** How many live indices have a server strictly less loaded than [k]. *)
Fixpoint count_lighter (upstream_servers : list (option UpstreamServer)) (k : N)
    (live : list nat) : nat :=
  match live with
  | [] => 0
  | i :: live' =>
      match load_of upstream_servers i with
      | Some k' => if (k' <? k)%N then S (count_lighter upstream_servers k live')
                   else count_lighter upstream_servers k live'
      | None => count_lighter upstream_servers k live'
      end
  end.

Fixpoint count_below (k : N) (l : list (nat * N)) : nat :=
  match l with
  | [] => 0
  | y :: l' => if (y.2 <? k)%N then S (count_below k l') else count_below k l'
  end.

Definition key_le (x y : nat * N) : Prop := (x.2 <= y.2)%N.

Lemma insert_by_key_perm x l : insert_by_key x l ≡ₚ x :: l.
Proof.
  induction l as [|y l IH]; simpl; [done|].
  destruct (x.2 <=? y.2)%N; [done|].
  rewrite IH. apply perm_swap.
Qed.

Lemma sort_by_key_perm l : sort_by_key l ≡ₚ l.
Proof.
  induction l as [|x l IH]; simpl; [done|].
  rewrite insert_by_key_perm. by rewrite IH.
Qed.

Lemma insert_by_key_sorted x l :
  StronglySorted key_le l -> StronglySorted key_le (insert_by_key x l).
Proof.
  induction l as [|y l IH]; simpl; intros Hs.
  - repeat constructor.
  - inversion Hs as [|? ? Hs' Hy]; subst.
    destruct (x.2 <=? y.2)%N eqn:Hxy.
    + apply N.leb_le in Hxy. constructor; [done|].
      constructor; [done|]. eapply Forall_impl; [exact Hy|].
      unfold key_le. intros z Hz. lia.
    + apply N.leb_gt in Hxy. constructor; [by apply IH|].
      apply List.Forall_forall. intros z Hz.
      apply (Permutation_in _ (insert_by_key_perm x l)) in Hz.
      destruct Hz as [<-|Hz]; unfold key_le; [lia|].
      by apply (proj1 (List.Forall_forall _ _) Hy).
Qed.

Lemma sort_by_key_sorted l : StronglySorted key_le (sort_by_key l).
Proof.
  induction l as [|x l IH]; simpl; [constructor|]. by apply insert_by_key_sorted.
Qed.

Lemma count_below_perm k l1 l2 : l1 ≡ₚ l2 -> count_below k l1 = count_below k l2.
Proof.
  induction 1 as [|x l1 l2 _ IH|x y l|l1 l2 l3 _ IH1 _ IH2]; simpl; try lia.
  - destruct (x.2 <? k)%N; lia.
  - destruct (x.2 <? k)%N, (y.2 <? k)%N; lia.
Qed.

(** In a list sorted by load, fewer than [j] entries are lighter than the
    [j]-th. *)
Lemma count_below_sorted l j x :
  StronglySorted key_le l -> l !! j = Some x -> count_below x.2 l <= j.
Proof.
  revert j. induction l as [|y l IH]; intros j Hs Hj; [done|].
  inversion Hs as [|? ? Hs' Hy]; subst. destruct j as [|j]; simpl in Hj.
  - injection Hj as ->. simpl. rewrite (proj2 (N.ltb_ge _ _) (N.le_refl _)).
    assert (H0 : forall l', Forall (key_le x) l' -> count_below x.2 l' = 0).
    { induction l' as [|z l' IH']; intros Hf; simpl; [done|].
      inversion Hf as [|? ? Hz Hf']; subst. unfold key_le in Hz.
      rewrite (proj2 (N.ltb_ge _ _) Hz). by apply IH'. }
    rewrite H0; [lia|done].
  - simpl. specialize (IH j Hs' Hj). destruct (_ <? _)%N; lia.
Qed.

(** The busy map P2 builds from the live vector. *)
Lemma busy_map_entries servers live busy :
  mapM (fun i => s ← index servers i ≫= id; Some (i, pending_queries_count s)) live =
    Some busy ->
  fst <$> busy = live /\
  (forall y, y ∈ busy -> load_of servers y.1 = Some y.2) /\
  (forall k, count_lighter servers k live = count_below k busy).
Proof.
  intros H. apply mapM_Some_1 in H.
  induction H as [|i y live busy Hiy _ IH].
  { split; [done|split; [|done]]. intros y Hy. by apply elem_of_nil in Hy. }
  destruct IH as (IH1 & IH2 & IH3). cbv beta in Hiy.
  destruct (index servers i) as [[s|]|] eqn:Hs; simpl in Hiy; try done.
  injection Hiy as <-. split; [rewrite <- IH1; reflexivity|]. split.
  - intros z [->|Hz]%elem_of_cons; [unfold load_of; cbn [fst snd]; by rewrite Hs | by apply IH2].
  - intros k. simpl. unfold load_of. rewrite Hs. simpl.
    destruct (_ <? k)%N; rewrite IH3; done.
Qed.

Lemma land1_values (n : N) : N.to_nat (N.land n 1) <= 1 /\
  N.to_nat (N.land n 1) <> N.to_nat (N.land (n + 1) 1).
Proof.
  rewrite !(N.land_ones _ 1). change (2 ^ 1)%N with 2%N.
  pose proof (N.mod_lt n 2 ltac:(lia)).
  assert (Hn : ((n + 1) mod 2 = 1 - n mod 2)%N).
  { rewrite N.Div0.add_mod. set (m := (n mod 2)%N) in *. clearbody m.
    assert (Hm : m = 0%N \/ m = 1%N) by lia.
    destruct Hm as [-> | ->]; reflexivity. }
  rewrite Hn. split; lia.
Qed.

(** The error outcome of [pick_upstream]. *)
Lemma pick_upstream_err_no_live slot nq servers live is_retry mode :
  (exists e, pick_upstream slot nq servers live is_retry mode = Some (Err e)) <->
  live = [].
Proof.
  split.
  - intros [e He]. destruct live as [|i live]; [done|].
    unfold pick_upstream in He. cbn [length Nat.eqb] in He.
    destruct mode; cbn [mbind option_bind fmap option_fmap option_map] in He.
    + destruct (index (i :: live) 0); simpl in He; congruence.
    + destruct (index (i :: live) _); simpl in He; congruence.
    + destruct (mapM _ _); cbn [mbind option_bind] in He; [|done].
      destruct (index _ _); cbn [mbind option_bind] in He; congruence.
  - intros ->. by exists "All upstream servers are down"%string.
Qed.

(** Extra: [pick_upstream] reports "All upstream servers are down" exactly
    when the live vector is empty, whatever the mode; in no other case does
    it return an error. *)
Theorem pick_upstream_err_iff_no_live slot nq servers live is_retry mode :
  (exists e, pick_upstream slot nq servers live is_retry mode = Some (Err e)) <->
  live = [].
Proof. exact (pick_upstream_err_no_live slot nq servers live is_retry mode). Qed.

(** The index [pick_upstream] returns is live. *)
Lemma pick_upstream_ok_in_live slot nq servers live is_retry mode a :
  pick_upstream slot nq servers live is_retry mode = Some (Ok a) -> a ∈ live.
Proof.
  unfold pick_upstream. destruct (Nat.eqb (length live) 0); [done|].
  destruct mode; cbn [mbind option_bind fmap option_fmap option_map].
  - destruct (index live 0) as [x|] eqn:Hx; [|done]. intros [= ->].
    by eapply list_elem_of_lookup_2.
  - destruct (index live _) as [x|] eqn:Hx; [|done]. intros [= ->].
    by eapply list_elem_of_lookup_2.
  - destruct (mapM _ _) as [busy|] eqn:Hb; cbn [mbind option_bind]; [|done].
    destruct (busy_map_entries _ _ _ Hb) as (Hfst & _ & _).
    destruct (index (sort_by_key busy) _) as [x|] eqn:Hx;
      cbn [mbind option_bind]; [|done].
    intros [= <-]. rewrite <- Hfst. apply list_elem_of_fmap_2.
    rewrite <- (sort_by_key_perm busy). by eapply list_elem_of_lookup_2.
Qed.

(** Extra: whatever the mode, the index [pick_upstream] returns is one of
    the live indices. *)
Theorem pick_upstream_ok_live slot nq servers live is_retry mode a :
  pick_upstream slot nq servers live is_retry mode = Some (Ok a) -> a ∈ live.
Proof. exact (pick_upstream_ok_in_live slot nq servers live is_retry mode a). Qed.

(** Extra: in P2 mode the chosen server is one of the two least loaded: at
    most one live index points at a server with strictly fewer pending
    queries. *)
Theorem p2_picks_two_least_loaded slot nq servers live is_retry a :
  pick_upstream slot nq servers live is_retry P2 = Some (Ok a) ->
  exists k, load_of servers a = Some k /\ count_lighter servers k live <= 1.
Proof.
  unfold pick_upstream. destruct (Nat.eqb (length live) 0); [done|].
  destruct (mapM _ _) as [busy|] eqn:Hb; cbn [mbind option_bind]; [|done].
  destruct (busy_map_entries _ _ _ Hb) as (_ & Hload & Hcount).
  set (j := if Nat.eqb (length (sort_by_key busy)) 1 then 0 else _).
  assert (Hj : j <= 1).
  { subst j. destruct (Nat.eqb _ 1); [lia|]. apply land1_values. }
  destruct (index (sort_by_key busy) j) as [x|] eqn:Hx;
    cbn [mbind option_bind]; [|done].
  intros [= <-]. exists x.2. split.
  - apply Hload. rewrite <- (sort_by_key_perm busy).
    by eapply list_elem_of_lookup_2.
  - rewrite Hcount, <- (count_below_perm _ _ _ (sort_by_key_perm busy)).
    pose proof (count_below_sorted _ _ _ (sort_by_key_sorted busy) Hx). lia.
Qed.

(** Extra: in P2 mode, with at least two distinct live indices, the retry
    goes to a different server than the first attempt. *)
Theorem p2_retry_differs slot nq servers live a :
  NoDup live -> 2 <= length live ->
  pick_upstream slot nq servers live false P2 = Some (Ok a) ->
  exists b, pick_upstream slot nq servers live true P2 = Some (Ok b) /\ b <> a.
Proof.
  intros Hnd Hlen. unfold pick_upstream.
  destruct (Nat.eqb (length live) 0) eqn:H0; [apply Nat.eqb_eq in H0; lia|].
  destruct (mapM _ _) as [busy|] eqn:Hb; cbn [mbind option_bind]; [|done].
  destruct (busy_map_entries _ _ _ Hb) as (Hfst & _ & _).
  assert (Hl : length (sort_by_key busy) = length live).
  { rewrite (Permutation_length (sort_by_key_perm busy)), <- Hfst.
    symmetry. apply length_fmap. }
  assert (Hnd' : NoDup (fst <$> sort_by_key busy)).
  { by rewrite (sort_by_key_perm busy), Hfst. }
  rewrite Hl. destruct (Nat.eqb (length live) 1) eqn:H1;
    [apply Nat.eqb_eq in H1; lia|].
  destruct (land1_values (tid nq + 0)) as [Hj0 Hne].
  replace (tid nq + 0 + 1)%N with (tid nq + 1)%N in Hne by lia.
  pose proof (land1_values (tid nq + 1)) as [Hj1 _].
  destruct (lookup_lt_is_Some_2 (sort_by_key busy)
              (N.to_nat (N.land (tid nq + 1) 1)) ltac:(lia)) as [y Hy].
  destruct (index (sort_by_key busy) (N.to_nat (N.land (tid nq + 0) 1)))
    as [x|] eqn:Hx; cbn [mbind option_bind]; [|done].
  intros [= <-]. exists y.1. unfold index. rewrite Hy. split; [done|].
  intros E. apply Hne.
  eapply (NoDup_lookup _ _ _ x.1 Hnd');
    [unfold index in Hx; by rewrite list_lookup_fmap, Hx|
     rewrite list_lookup_fmap, Hy; simpl; by rewrite E].
Qed.

(** Extra: in P2 mode a live index with no server in [upstream_servers]
    panics the picker (the source's [upstream_servers[i]] indexing). *)
Theorem p2_missing_server_panics slot nq servers live is_retry i :
  i ∈ live -> load_of servers i = None ->
  pick_upstream slot nq servers live is_retry P2 = None.
Proof.
  intros Hi Hnone. unfold pick_upstream.
  destruct (Nat.eqb (length live) 0) eqn:H0.
  { apply Nat.eqb_eq, length_zero_iff_nil in H0. subst. by apply elem_of_nil in Hi. }
  replace (mapM _ live) with (@None (list (nat * N))); [done|].
  symmetry. apply mapM_None. apply Exists_exists. exists i. split; [done|].
  unfold load_of in Hnone. destruct (index servers i) as [[s|]|]; done.
Qed.

(** ** Further properties of the handler *)

(** The clients answered by a list of messages, in order. *)
Fixpoint responded (evs : list Event) : list ClientQuery :=
  match evs with
  | [] => []
  | Respond cq _ :: evs' => cq :: responded evs'
  | _ :: evs' => responded evs'
  end.

(** The (local port, address) pairs of the upstream queries sent. *)
Fixpoint upstream_sends (evs : list Event) : list (N * SocketAddr) :=
  match evs with
  | [] => []
  | SendUpstream port addr _ :: evs' => (port, addr) :: upstream_sends evs'
  | _ :: evs' => upstream_sends evs'
  end.

(** The addresses probed. *)
Fixpoint probe_targets (evs : list Event) : list SocketAddr :=
  match evs with
  | [] => []
  | SendProbe _ addr _ :: evs' => addr :: probe_targets evs'
  | _ :: evs' => probe_targets evs'
  end.

Lemma upstream_sends_app evs1 evs2 :
  upstream_sends (evs1 ++ evs2) = upstream_sends evs1 ++ upstream_sends evs2.
Proof. induction evs1 as [|[] evs1 IH]; simpl; by rewrite ?IH. Qed.

Lemma probe_targets_app evs1 evs2 :
  probe_targets (evs1 ++ evs2) = probe_targets evs1 ++ probe_targets evs2.
Proof. induction evs1 as [|[] evs1 IH]; simpl; by rewrite ?IH. Qed.

Lemma responded_app evs1 evs2 :
  responded (evs1 ++ evs2) = responded evs1 ++ responded evs2.
Proof. induction evs1 as [|[] evs1 IH]; simpl; by rewrite ?IH. Qed.

(** The outcomes of [maybe_send_probe_to_offline_servers]. *)
Lemma maybe_send_probe_outcome send_to delay pkt usqs reg sock sample now reg' r evs :
  maybe_send_probe_to_offline_servers send_to delay pkt usqs reg sock sample now =
    Some (reg', r, evs) ->
  (evs = [] /\ forall a, r <> Ok (Some a)) \/
  (exists u s, u ∈ usqs /\ reg !! usq_socket_addr u = Some s /\
     r = Ok (Some (socket_addr s)) /\ evs = [SendProbe sock (socket_addr s) pkt]).
Proof.
  unfold maybe_send_probe_to_offline_servers. intros H.
  destruct (Nat.eqb (length usqs) 0); [injection H as _ <- <-; by left|].
  destruct (Nat.eqb (length (omap _ usqs)) 0); [injection H as _ <- <-; by left|].
  destruct (index (omap _ usqs) sample) as [s|] eqn:Hs; cbn [mbind option_bind] in H;
    [|done].
  destruct (match last_probe_ts s with Some _ => _ | None => _ end);
    [injection H as _ <- <-; by left|].
  destruct (send_to _ _ _); injection H as _ <- <-; [right|by left].
  apply list_elem_of_lookup_2, list_elem_of_omap in Hs as (u & Hu & Hus).
  by exists u, s.
Qed.

(** Extra: a probe is sent at most once per call, to the socket address of
    the registry entry of one of the query's candidate servers, on the
    socket passed in, with the query's packet; the [Ok (Some addr)] result
    names exactly the address probed, and no other outcome sends anything. *)
Theorem probe_goes_to_candidate send_to delay pkt usqs reg sock sample now reg' r evs :
  maybe_send_probe_to_offline_servers send_to delay pkt usqs reg sock sample now =
    Some (reg', r, evs) ->
  (evs = [] /\ forall a, r <> Ok (Some a)) \/
  (exists u s, u ∈ usqs /\ reg !! usq_socket_addr u = Some s /\
     r = Ok (Some (socket_addr s)) /\ evs = [SendProbe sock (socket_addr s) pkt]).
Proof. exact (maybe_send_probe_outcome send_to delay pkt usqs reg sock sample now reg' r evs). Qed.

(** Extra: when every registry entry of the query's candidates was probed
    less than [UPSTREAM_PROBES_DELAY_MS] ago, no probe is sent and the
    result is [Ok None]. *)
Theorem probe_rate_limited send_to delay pkt usqs reg sock sample now reg' r evs :
  (forall u s, u ∈ usqs -> reg !! usq_socket_addr u = Some s ->
     exists last, last_probe_ts s = Some last /\ (now - last < delay)%N) ->
  maybe_send_probe_to_offline_servers send_to delay pkt usqs reg sock sample now =
    Some (reg', r, evs) ->
  evs = [] /\ r = Ok None.
Proof.
  intros Hrecent. unfold maybe_send_probe_to_offline_servers. intros H.
  destruct (Nat.eqb (length usqs) 0); [by injection H as _ <- <-|].
  destruct (Nat.eqb (length (omap _ usqs)) 0); [by injection H as _ <- <-|].
  destruct (index (omap _ usqs) sample) as [s|] eqn:Hs; cbn [mbind option_bind] in H;
    [|done].
  apply list_elem_of_lookup_2, list_elem_of_omap in Hs as (u & Hu & Hus).
  destruct (Hrecent u s Hu Hus) as (last & Hlast & Hlt). rewrite Hlast in H.
  apply N.ltb_lt in Hlt. rewrite Hlt in H. by injection H as _ <- <-.
Qed.

Lemma maybe_respond_with_stale_entry_events cache_get2 bsp cq :
  (forall nq, is_Some (bsp nq)) ->
  responded (maybe_respond_with_stale_entry cache_get2 bsp cq) = [cq] /\
  upstream_sends (maybe_respond_with_stale_entry cache_get2 bsp cq) = [] /\
  probe_targets (maybe_respond_with_stale_entry cache_get2 bsp cq) = [].
Proof.
  intros Hsf. unfold maybe_respond_with_stale_entry.
  destruct (cache_get2 _ _); [done|].
  destruct (Hsf (normalized_question cq)) as [pkt ->]. done.
Qed.

Lemma maybe_respond_to_all_events cache_get2 bsp p :
  (forall nq, is_Some (bsp nq)) ->
  let evs := maybe_respond_to_all_clients_with_stale_entry cache_get2 bsp p in
  responded evs = client_queries p /\ upstream_sends evs = [] /\ probe_targets evs = [].
Proof.
  intros Hsf. unfold maybe_respond_to_all_clients_with_stale_entry. simpl.
  induction (client_queries p) as [|cq cqs IH]; [done|]. simpl.
  destruct (maybe_respond_with_stale_entry_events cache_get2 bsp cq Hsf) as (E1 & E2 & E3).
  destruct IH as (I1 & I2 & I3).
  rewrite responded_app, upstream_sends_app, probe_targets_app, E1, E2, E3, I1, I2, I3.
  done.
Qed.

(** Extra: when the retry timer fires, in a state whose waiting count
    matches the pending table (the C5 accounting, so the usize [fetch_sub]
    does not wrap), while the server of the retry is in the registry and
    the pending query is still there (and SERVFAIL can be built), the
    pending query is removed, the waiting count drops by its
    number of clients, the failure is recorded on that server after the
    decrement of its pending count, and every client of the pending query
    is answered once, in the order they arrived, with nothing sent
    upstream. *)
Theorem second_timeout_answers_all cache_get2 bsp record_failure st t s p st' evs :
  waiting_inv st ->
  (forall nq, is_Some (bsp nq)) ->
  upstream_servers st !! usq_socket_addr (st_upstream_server_for_query t) = Some s ->
  pending_queries st !! st_key t = Some p ->
  on_second_timeout cache_get2 bsp record_failure st t = (st', evs) ->
  pending_queries st' = delete (st_key t) (pending_queries st) /\
  waiting_clients_count st' =
    (waiting_clients_count st - N.of_nat (length (client_queries p)))%N /\
  upstream_servers st' !! usq_socket_addr (st_upstream_server_for_query t) =
    Some (record_failure (set_pending_queries_count s
                            (saturating_sub (pending_queries_count s) 1))) /\
  responded evs = client_queries p /\ upstream_sends evs = [] /\ probe_targets evs = [].
Proof.
  intros Hinv Hsf Hs Hp. unfold on_second_timeout. rewrite Hs. simpl. rewrite Hp.
  intros [= <- <-]. simpl. rewrite lookup_insert_eq.
  unfold waiting_inv in Hinv. rewrite (waiting_sum_delete _ _ _ Hp) in Hinv.
  unfold wrapping_sub. rewrite (proj2 (N.leb_le _ _)) by lia.
  destruct (maybe_respond_to_all_events cache_get2 bsp p Hsf) as (E1 & E2 & E3).
  done.
Qed.


(** The outcomes of [new_pending_query]. *)
Lemma new_pending_query_spec bqp slot socks nq servers live is_retry mode sample r :
  new_pending_query bqp slot socks nq servers live is_retry mode sample = Some r ->
  match r with
  | Ok (pkt, nqm, idx, sock) =>
      bqp nq false = Some (pkt, nqm) /\ idx ∈ live /\ socks !! sample = Some sock
  | Err _ => is_Some (bqp nq false) /\ live = []
  end.
Proof.
  unfold new_pending_query. intros H.
  destruct (bqp nq false) as [[pkt nqm]|] eqn:Hq; cbn [mbind option_bind] in H; [|done].
  destruct (pick_upstream slot nq servers live is_retry mode) as [[idx|e]|] eqn:Hp;
    cbn [mbind option_bind] in H; [|..|done].
  - destruct (index socks sample) as [sock|] eqn:Hs; cbn [mbind option_bind] in H; [|done].
    injection H as <-. split; [done|]. split; [|done].
    by eapply pick_upstream_ok_in_live.
  - injection H as <-. split; [done|].
    apply (pick_upstream_err_no_live slot nq servers live is_retry mode). by exists e.
Qed.

(** Extra: [new_pending_query] fails with an error only when the live
    vector is empty (and the codec succeeded); on success the packet and
    minimal question are the codec's, the index is a live index, and the
    socket is the drawn element of the socket vector. *)
Theorem new_pending_query_result bqp slot socks nq servers live is_retry mode sample r :
  new_pending_query bqp slot socks nq servers live is_retry mode sample = Some r ->
  match r with
  | Ok (pkt, nqm, idx, sock) =>
      bqp nq false = Some (pkt, nqm) /\ idx ∈ live /\ socks !! sample = Some sock
  | Err _ => is_Some (bqp nq false) /\ live = []
  end.
Proof. exact (new_pending_query_spec bqp slot socks nq servers live is_retry mode sample r). Qed.

(** Extra: with a live server, a waiting count under the limit and a
    pending query already stored under the question's key (custom hash
    (0, 0)), a client query is appended at the end of that pending query's
    clients and the waiting count goes up by one; nothing is sent, no timer
    is armed, the registry is left alone. *)
Theorem process_attaches_to_pending key_of cache_get2 bqp bsp slot prep send_to socks delay
    config st cq live s1 s2 now p :
  upstream_servers_live st <> [] ->
  (waiting_clients_count st < max_waiting_clients config)%N ->
  let key := {| normalized_question_key := key_of (normalized_question cq);
                custom_hash := (0, 0)%N |} in
  pending_queries st !! key = Some p ->
  fut_process_client_query key_of cache_get2 bqp bsp slot prep send_to socks delay
    config st cq live s1 s2 now =
  Some (set_waiting_clients_count
          (set_pending_queries st (<[key := push_client_query p cq]> (pending_queries st)))
          (waiting_clients_count st + 1)%N, [], None).
Proof.
  intros Hlive Hw key Hp. unfold fut_process_client_query.
  destruct (Nat.eqb (length (upstream_servers_live st)) 0) eqn:H0.
  { apply Nat.eqb_eq, length_zero_iff_nil in H0. done. }
  unfold cap_pending_queries. apply N.ltb_lt in Hw. rewrite Hw.
  cbn [mbind option_bind]. unfold maybe_add_to_existing_pending_query.
  fold key. rewrite Hp. done.
Qed.


(** Extra: a retry that arms the second timer keeps the pending query
    under the question's key with the same clients (and probed address),
    leaves every other pending query, the waiting count and the live vector
    alone, raises the pending count of the new target server by one
    (saturating, no [prepare_send]) and sends exactly one upstream query,
    to that server's candidate address, with no probe. *)
Theorem retry_resends_same_clients key_of bqp slot socks config st nq usqs sample now
    st' evs t :
  fut_retry_query key_of bqp slot socks config st nq usqs sample now = Some (st', evs, Some t) ->
  let key := {| normalized_question_key := key_of nq; custom_hash := (0, 0)%N |} in
  let addr := usq_socket_addr (st_upstream_server_for_query t) in
  st_key t = key /\
  (exists p p', pending_queries st !! key = Some p /\ pending_queries st' !! key = Some p' /\
     client_queries p' = client_queries p /\ probed_socket_addr p' = probed_socket_addr p) /\
  (forall k, k <> key -> pending_queries st' !! k = pending_queries st !! k) /\
  waiting_clients_count st' = waiting_clients_count st /\
  upstream_servers_live st' = upstream_servers_live st /\
  st_upstream_server_for_query t ∈ usqs /\
  exists sock s,
    sock ∈ socks /\ upstream_servers st !! addr = Some s /\
    upstream_servers st' !! addr =
      Some (set_pending_queries_count s (saturating_add (pending_queries_count s) 1)) /\
    upstream_sends evs = [(sock, addr)] /\ probe_targets evs = [].
Proof.
  intros H. unfold fut_retry_query in H.
  destruct (pending_queries st !! _) as [p|] eqn:Hk; [|by injection H].
  destruct (index usqs _); cbn [mbind option_bind] in H; [|done].
  destruct (upstream_servers st !! _); [|by injection H].
  destruct (new_pending_query _ _ _ _ _ _ _ _ _) as [[[[[pkt nqm] idx] sock]|e]|] eqn:Hnew;
    cbn [mbind option_bind] in H; [|by injection H|done].
  apply new_pending_query_spec in Hnew as (_ & _ & Hsock).
  destruct (index usqs idx) as [usq|] eqn:Husq; cbn [mbind option_bind] in H; [|done].
  destruct (upstream_servers st !! _) as [srv|] eqn:Hsrv; [|by injection H].
  injection H as <- <- <-.
  unfold set_pending_queries, set_upstream_servers.
  cbn [st_key st_upstream_server_for_query pending_queries upstream_servers
       waiting_clients_count upstream_servers_live].
  split; [done|]. split.
  { exists p, (retarget_pending_query p nqm sock now idx).
    rewrite lookup_insert_eq. by repeat split. }
  split; [intros k' Hk'; by rewrite lookup_insert_ne by congruence|].
  split; [done|]. split; [done|].
  split; [by eapply list_elem_of_lookup_2|].
  exists sock, srv. split; [by eapply list_elem_of_lookup_2|].
  split; [done|]. by rewrite lookup_insert_eq.
Qed.

(** Every pending query the handler stores: its key has custom hash
    (0, 0), so has the pending query, it holds at least one client, and
    every one of its clients asks a question of that key. *)
Definition entry_ok (key_of : NormalizedQuestion -> NormalizedQuestionKey)
    (k : PendingQueryKey) (p : PendingQuery) : Prop :=
  custom_hash k = (0, 0)%N /\ pq_custom_hash p = (0, 0)%N /\ client_queries p <> [] /\
  Forall (fun cq => key_of (normalized_question cq) = normalized_question_key k)
    (client_queries p).

Definition entries_ok key_of (st : State) : Prop :=
  map_Forall (entry_ok key_of) (pending_queries st).

Lemma cap_pending_queries_entries key_of config st st' b :
  entries_ok key_of st -> cap_pending_queries config st = Some (st', b) ->
  entries_ok key_of st'.
Proof.
  unfold cap_pending_queries, entries_ok. intros Hok H.
  destruct (_ <? _)%N; [by injection H as <- _|].
  destruct (head _) as [[key p0]|]; [|by injection H as <- _].
  destruct (pending_queries st !! key); [|by injection H as <- _].
  destruct (_ <? _)%N; [done|]. injection H as <- _. simpl.
  by apply map_Forall_delete.
Qed.

Lemma fut_process_client_query_entries key_of cache_get2 bqp bsp slot prep send_to socks
    delay config st cq live s1 s2 now st' evs t :
  entries_ok key_of st ->
  fut_process_client_query key_of cache_get2 bqp bsp slot prep send_to socks delay
    config st cq live s1 s2 now = Some (st', evs, t) ->
  entries_ok key_of st'.
Proof.
  unfold fut_process_client_query. intros Hok H.
  destruct (Nat.eqb _ 0); [by injection H as <- _ _|].
  destruct (cap_pending_queries config st) as [[st1 b1]|] eqn:Hcap; [|done].
  cbn [mbind option_bind] in H.
  apply (cap_pending_queries_entries _ _ _ _ _ Hok) in Hcap.
  destruct (maybe_add_to_existing_pending_query st1 _ cq) as [st2 attached] eqn:Hadd.
  unfold maybe_add_to_existing_pending_query in Hadd.
  destruct (pending_queries st1 !! _) as [p|] eqn:Hp; injection Hadd as <- <-.
  { injection H as <- _ _. unfold entries_ok in *. simpl.
    apply map_Forall_insert_2; [|done].
    destruct (map_Forall_lookup_1 _ _ _ _ Hcap Hp) as (E1 & E2 & E3 & E4).
    split; [done|]. split; [done|]. simpl. split.
    - by destruct (client_queries p).
    - apply Forall_app. split; [done|]. by constructor. }
  destruct (new_pending_query _ _ _ _ _ _ _ _ _) as [[[[[pkt nqm] idx] sock]|e]|];
    cbn [mbind option_bind] in H; [|by injection H as <- _ _|done].
  destruct (maybe_send_probe_to_offline_servers _ _ _ _ _ _ _ _) as [[[reg r] pevs]|];
    cbn [mbind option_bind] in H; [|done].
  destruct (index _ idx) as [usq|]; cbn [mbind option_bind] in H; [|done].
  destruct (reg !! _) as [srv|]; [|by injection H as <- _ _].
  injection H as <- _ _. unfold entries_ok in *. simpl.
  apply map_Forall_insert_2; [|done].
  split; [done|]. split; [done|]. split; [done|]. by constructor.
Qed.

Lemma fut_retry_query_entries key_of bqp slot socks config st nq usqs s now st' evs t :
  entries_ok key_of st ->
  fut_retry_query key_of bqp slot socks config st nq usqs s now = Some (st', evs, t) ->
  entries_ok key_of st'.
Proof.
  unfold fut_retry_query. intros Hok H.
  destruct (pending_queries st !! _) as [p|] eqn:Hk; [|by injection H as <- _ _].
  destruct (index usqs _); cbn [mbind option_bind] in H; [|done].
  destruct (upstream_servers st !! _); [|by injection H as <- _ _].
  destruct (new_pending_query _ _ _ _ _ _ _ _ _) as [[[[[pkt nqm] idx] sock]|e]|];
    cbn [mbind option_bind] in H; [|by injection H as <- _ _|done].
  destruct (index usqs idx); cbn [mbind option_bind] in H; [|done].
  destruct (upstream_servers st !! _); [|by injection H as <- _ _].
  injection H as <- _ _. unfold entries_ok in *. simpl.
  apply map_Forall_insert_2; [|done].
  exact (map_Forall_lookup_1 _ _ _ _ Hok Hk).
Qed.

Lemma handler_step_entries key_of cache_get2 bqp bsp slot prep record_failure send_to socks
    delay config st st' :
  entries_ok key_of st ->
  handler_step key_of cache_get2 bqp bsp slot prep record_failure send_to socks delay
    config st st' ->
  entries_ok key_of st'.
Proof.
  intros Hok Hs. destruct Hs as [st cq live s1 s2 now st' evs t H|
                                 st ft s now st' evs t H|st t st' evs H|st reg live].
  - eapply fut_process_client_query_entries; eauto.
  - unfold on_first_timeout in H. eapply fut_retry_query_entries; [|exact H].
    by destruct (upstream_servers st !! _).
  - unfold on_second_timeout in H.
    destruct (upstream_servers st !! _); [|by injection H as <- _].
    simpl in H. destruct (pending_queries st !! st_key t);
      injection H as <- _; [|done].
    unfold entries_ok in *. simpl. by apply map_Forall_delete.
  - exact Hok.
Qed.

(** Extra: in every history of the handler from an empty pending table,
    each stored pending query has custom hash (0, 0) in its key and in
    itself, holds at least one client, and all its clients ask a question
    with the key it is stored under; so the responses of
    [maybe_respond_to_all_clients_with_stale_entry] go to clients of that
    question only. *)
Theorem reachable_entries_ok key_of cache_get2 bqp bsp slot prep record_failure
    send_to socks delay config reg live st :
  rtc (handler_step key_of cache_get2 bqp bsp slot prep record_failure send_to socks delay
         config) (initial_state reg live) st ->
  entries_ok key_of st.
Proof.
  intros Hs.
  assert (H0 : entries_ok key_of (initial_state reg live)) by apply map_Forall_empty.
  induction Hs as [|x y z Hxy _ IH]; [done|].
  apply IH. eapply handler_step_entries; eauto.
Qed.

(** ** Runs for the further properties *)

Module ExtraRuns.
Import Demo Runs.
Local Open Scope N_scope.

(** Two live servers: index 0 has one query in flight, index 1 none. *)
Definition p2_servers : list (option UpstreamServer) :=
  [Some (set_pending_queries_count (server 1 false) 1); Some (server 2 false)].
Definition usqs_13 : list UpstreamServerForQuery :=
  upstream_servers_for_query cq_a.
(** Both candidates stamped at 500. *)
Definition registry_probed : gmap SocketAddr UpstreamServer :=
  <[1 := set_last_probe_ts (server 1 false) (Some 500)]>
    (<[3 := set_last_probe_ts (server 3 true) (Some 500)]> ∅).
Definition timeout_a : SecondTimeout :=
  {| st_upstream_server_for_query := {| usq_socket_addr := 1 |}; st_key := key_a |}.
Definition dummy_pq : PendingQuery :=
  {| normalized_question_minimal := {| nqm_tid := 0; nqm_flags := 0 |};
     local_port := 0; client_queries := []; ts := 0; upstream_server_idx := 0%nat;
     probed_socket_addr := None; pq_custom_hash := (0, 0) |}.
Definition pq_a : PendingQuery :=
  match pending_queries st_a !! key_a with Some p => p | None => dummy_pq end.
(** A second client of question "a", with another custom hash. *)
Definition cq_a2 : ClientQuery := client "a" (5, 5) [1; 3] 3.
Definition run_retry :=
  fut_retry_query key_of build_query_packet slot0 sockets config st_a (question "a")
    usqs_13 0 2000.
Definition st_r : State := match run_retry with Some (st, _, _) => st | None => st0 end.
Definition evs_r : list Event := match run_retry with Some (_, evs, _) => evs | None => [] end.
Definition t_r : SecondTimeout :=
  match run_retry with Some (_, _, Some t) => t | _ => timeout_a end.

Lemma pick_upstream_ok_live_witness :
  pick_upstream slot0 (question "a") p2_servers [0; 1]%nat false P2 =
    Some (Ok 0%nat) /\ 0%nat ∈ [0; 1]%nat.
Proof.
  split; [reflexivity|].
  apply (pick_upstream_ok_live slot0 (question "a") p2_servers [0; 1]%nat false P2).
  vm_compute. reflexivity.
Defined.

Lemma p2_picks_two_least_loaded_witness :
  pick_upstream slot0 (question "a") p2_servers [0; 1]%nat false P2 =
    Some (Ok 0%nat) /\
  exists k, load_of p2_servers 0 = Some k /\
    (count_lighter p2_servers k [0; 1]%nat <= 1)%nat.
Proof.
  split; [reflexivity|].
  apply (p2_picks_two_least_loaded slot0 (question "a") p2_servers [0; 1]%nat false).
  vm_compute. reflexivity.
Defined.

Lemma p2_retry_differs_witness :
  NoDup [0; 1]%nat /\ (2 <= length [0; 1]%nat)%nat /\
  pick_upstream slot0 (question "a") p2_servers [0; 1]%nat false P2 =
    Some (Ok 0%nat) /\
  exists b, pick_upstream slot0 (question "a") p2_servers [0; 1]%nat true P2 =
    Some (Ok b) /\ b <> 0%nat.
Proof.
  assert (Hnd : NoDup [0; 1]%nat) by (repeat constructor; set_solver).
  split; [exact Hnd|]. split; [simpl; lia|]. split; [reflexivity|].
  apply (p2_retry_differs slot0 (question "a") p2_servers [0; 1]%nat 0%nat Hnd);
    [simpl; lia|reflexivity].
Defined.

Lemma p2_missing_server_panics_witness :
  1%nat ∈ [0; 1]%nat /\ load_of [Some (server 1 false)] 1 = None /\
  pick_upstream slot0 (question "a") [Some (server 1 false)] [0; 1]%nat false P2 = None.
Proof.
  assert (Hi : 1%nat ∈ [0; 1]%nat) by set_solver.
  split; [exact Hi|]. split; [reflexivity|].
  apply (p2_missing_server_panics slot0 (question "a") [Some (server 1 false)] [0; 1]%nat
           false 1 Hi).
  reflexivity.
Defined.

Lemma probe_goes_to_candidate_witness :
  maybe_send_probe_to_offline_servers send_ok 1000 query_packet usqs_13 registry
    40000 1 0 = Some (registry, Ok (Some 3%N), [SendProbe 40000 3 query_packet]) /\
  ((([SendProbe 40000 3 query_packet] : list Event) = [] /\
    forall a, (Ok (Some 3%N) : result (option SocketAddr) unit) <> Ok (Some a)) \/
   (exists u s, u ∈ usqs_13 /\ registry !! usq_socket_addr u = Some s /\
      (Ok (Some 3%N) : result (option SocketAddr) unit) = Ok (Some (socket_addr s)) /\
      ([SendProbe 40000 3 query_packet] : list Event) =
        [SendProbe 40000 (socket_addr s) query_packet])).
Proof.
  assert (H : maybe_send_probe_to_offline_servers send_ok 1000 query_packet
                usqs_13 registry 40000 1 0 =
              Some (registry, Ok (Some 3%N), [SendProbe 40000 3 query_packet]))
    by (vm_compute; reflexivity).
  split; [exact H|]. exact (probe_goes_to_candidate _ _ _ _ _ _ _ _ _ _ _ H).
Defined.

Lemma probe_rate_limited_witness :
  (forall u s, u ∈ usqs_13 -> registry_probed !! usq_socket_addr u = Some s ->
     exists last, last_probe_ts s = Some last /\ (1000 - last < 1000)%N) /\
  maybe_send_probe_to_offline_servers send_ok 1000 query_packet usqs_13
    registry_probed 40000 1 1000 = Some (registry_probed, Ok None, []) /\
  ([] : list Event) = [] /\ (Ok None : result (option SocketAddr) unit) = Ok None.
Proof.
  assert (Hrec : forall u s, u ∈ usqs_13 ->
            registry_probed !! usq_socket_addr u = Some s ->
            exists last, last_probe_ts s = Some last /\ (1000 - last < 1000)%N).
  { intros u s Hu Hs. unfold usqs_13, cq_a, client in Hu. simpl in Hu.
    apply elem_of_cons in Hu as [->|Hu].
    - vm_compute in Hs. injection Hs as <-. exists 500%N. split; [reflexivity|lia].
    - apply elem_of_cons in Hu as [->|Hu]; [|by apply elem_of_nil in Hu].
      vm_compute in Hs. injection Hs as <-. exists 500%N. split; [reflexivity|lia]. }
  assert (H : maybe_send_probe_to_offline_servers send_ok 1000 query_packet usqs_13
                registry_probed 40000 1 1000 =
              Some (registry_probed, Ok None, [])) by (vm_compute; reflexivity).
  split; [exact Hrec|]. split; [exact H|].
  exact (probe_rate_limited _ _ _ _ _ _ _ _ _ _ _ Hrec H).
Defined.


Definition srv_a : UpstreamServer :=
  match upstream_servers st_a !! 1 with Some s => s | None => server 1 false end.
Definition run_t2 := on_second_timeout no_cache build_servfail_packet record_failure st_a timeout_a.
Definition st_t2 : State := fst run_t2.
Definition evs_t2 : list Event := snd run_t2.

Lemma second_timeout_answers_all_witness :
  waiting_inv st_a /\
  (forall nq, is_Some (build_servfail_packet nq)) /\
  upstream_servers st_a !! usq_socket_addr (st_upstream_server_for_query timeout_a) =
    Some srv_a /\
  pending_queries st_a !! st_key timeout_a = Some pq_a /\
  on_second_timeout no_cache build_servfail_packet record_failure st_a timeout_a =
    (st_t2, evs_t2) /\
  pending_queries st_t2 = delete (st_key timeout_a) (pending_queries st_a) /\
  waiting_clients_count st_t2 =
    (waiting_clients_count st_a - N.of_nat (length (client_queries pq_a)))%N /\
  upstream_servers st_t2 !! usq_socket_addr (st_upstream_server_for_query timeout_a) =
    Some (record_failure (set_pending_queries_count srv_a
                            (saturating_sub (pending_queries_count srv_a) 1))) /\
  responded evs_t2 = client_queries pq_a /\ upstream_sends evs_t2 = [] /\
  probe_targets evs_t2 = [].
Proof.
  assert (Hsf : forall nq, is_Some (build_servfail_packet nq)) by (intros nq; by eexists).
  assert (Hs : upstream_servers st_a !! usq_socket_addr (st_upstream_server_for_query timeout_a) =
               Some srv_a) by (vm_compute; reflexivity).
  assert (Hp : pending_queries st_a !! st_key timeout_a = Some pq_a) by (vm_compute; reflexivity).
  assert (H : on_second_timeout no_cache build_servfail_packet record_failure st_a timeout_a =
              (st_t2, evs_t2)) by reflexivity.
  assert (Hinv : waiting_inv st_a) by (vm_compute; reflexivity).
  split; [exact Hinv|].
  split; [exact Hsf|]. split; [exact Hs|]. split; [exact Hp|]. split; [exact H|].
  exact (second_timeout_answers_all _ _ _ _ _ _ _ _ _ Hinv Hsf Hs Hp H).
Defined.

Lemma new_pending_query_result_witness :
  new_pending_query build_query_packet slot0 sockets (question "a") [Some (server 1 false)]
    [0%nat] false Fallback 0 =
    Some (Ok (query_packet, {| nqm_tid := 7; nqm_flags := 0 |}, 0%nat, 40000)) /\
  (build_query_packet (question "a") false =
     Some (query_packet, {| nqm_tid := 7; nqm_flags := 0 |}) /\
   0%nat ∈ [0%nat] /\ sockets !! 0%nat = Some 40000).
Proof.
  assert (H : new_pending_query build_query_packet slot0 sockets (question "a")
                [Some (server 1 false)] [0%nat] false Fallback 0 =
              Some (Ok (query_packet, {| nqm_tid := 7; nqm_flags := 0 |}, 0%nat, 40000)))
    by reflexivity.
  split; [exact H|]. exact (new_pending_query_result _ _ _ _ _ _ _ _ _ _ H).
Defined.

Lemma process_attaches_to_pending_witness :
  upstream_servers_live st_a <> [] /\
  (waiting_clients_count st_a < max_waiting_clients config)%N /\
  pending_queries st_a !! key_a = Some pq_a /\
  process no_cache build_query_packet st_a cq_a2 [0%nat] 1 500 =
  Some (set_waiting_clients_count
          (set_pending_queries st_a
             (<[key_a := push_client_query pq_a cq_a2]> (pending_queries st_a)))
          (waiting_clients_count st_a + 1)%N, [], None).
Proof.
  assert (Hl : upstream_servers_live st_a <> []) by (vm_compute; discriminate).
  assert (Hw : (waiting_clients_count st_a < max_waiting_clients config)%N)
    by (vm_compute; reflexivity).
  assert (Hp : pending_queries st_a !! key_a = Some pq_a) by (vm_compute; reflexivity).
  split; [exact Hl|]. split; [exact Hw|]. split; [exact Hp|].
  exact (process_attaches_to_pending key_of no_cache build_query_packet build_servfail_packet
           slot0 prepare_send send_ok sockets 1000 config st_a cq_a2 [0%nat] 0 1 500 pq_a
           Hl Hw Hp).
Defined.


Lemma retry_resends_same_clients_witness :
  run_retry = Some (st_r, evs_r, Some t_r) /\
  st_key t_r = key_a /\
  (exists p p', pending_queries st_a !! key_a = Some p /\
     pending_queries st_r !! key_a = Some p' /\
     client_queries p' = client_queries p /\ probed_socket_addr p' = probed_socket_addr p) /\
  (forall k, k <> key_a -> pending_queries st_r !! k = pending_queries st_a !! k) /\
  waiting_clients_count st_r = waiting_clients_count st_a /\
  upstream_servers_live st_r = upstream_servers_live st_a /\
  st_upstream_server_for_query t_r ∈ usqs_13 /\
  exists sock s,
    sock ∈ sockets /\
    upstream_servers st_a !! usq_socket_addr (st_upstream_server_for_query t_r) = Some s /\
    upstream_servers st_r !! usq_socket_addr (st_upstream_server_for_query t_r) =
      Some (set_pending_queries_count s (saturating_add (pending_queries_count s) 1)) /\
    upstream_sends evs_r = [(sock, usq_socket_addr (st_upstream_server_for_query t_r))] /\
    probe_targets evs_r = [].
Proof.
  assert (H : run_retry = Some (st_r, evs_r, Some t_r)) by (vm_compute; reflexivity).
  split; [exact H|].
  exact (retry_resends_same_clients key_of build_query_packet slot0 sockets config st_a
           (question "a") usqs_13 0 2000 st_r evs_r t_r H).
Defined.

Lemma reachable_entries_ok_witness :
  rtc (handler_step key_of no_cache build_query_packet build_servfail_packet slot0
         prepare_send record_failure send_ok sockets 1000 config)
      (initial_state registry [0%nat]) st_r /\
  entries_ok key_of st_r.
Proof.
  assert (H : rtc (handler_step key_of no_cache build_query_packet build_servfail_packet slot0
                     prepare_send record_failure send_ok sockets 1000 config)
                  (initial_state registry [0%nat]) st_r).
  { eapply rtc_l.
    - apply (step_client_query _ _ _ _ _ _ _ _ _ _ _ _ cq_a [0%nat] 0 1 0
               st_a evs_a (Some ft_a)).
      vm_compute. reflexivity.
    - apply rtc_once.
      apply (step_first_timeout _ _ _ _ _ _ _ _ _ _ _ _
               {| ft_upstream_server_for_query := {| usq_socket_addr := 5 |};
                  ft_normalized_question := question "a";
                  ft_upstream_servers_for_query := usqs_13 |} 0 2000 st_r evs_r (Some t_r)).
      vm_compute. reflexivity. }
  split; [exact H|].
  exact (reachable_entries_ok _ _ _ _ _ _ _ _ _ _ _ _ _ _ H).
Defined.

End ExtraRuns.
